(** * SmartPointer.cpp: the reference-counted smart pointer [SP<T>] and its
    counter class [RC], embedded over an explicit store.

    The store holds the heap objects the code allocates with [new]
    ([RC] counters and [T] payloads, each at an address), the [SP<T>] handle
    objects themselves (each at the address of the variable that holds it),
    a bump allocator, and the trace of payload addresses on which [delete]
    was executed.  What C++ leaves undefined (access through a null or a
    dangling pointer, a second [delete], the use of a handle outside its
    lifetime) is an explicit [Undefined] outcome. *)

From stdpp Require Import gmap list fin_maps.
From Stdlib Require Import ZArith Lia.

Local Open Scope Z_scope.

(** ** The machine integer [int] *)

Definition INT_MIN : Z := - 2 ^ 31.
Definition INT_MAX : Z := 2 ^ 31 - 1.

(** Two's complement wrap-around of a 32-bit [int].  C++ leaves signed
    overflow undefined; the wrap-around is what [count++] and [--count]
    compute on the usual targets, and every statement below that depends on
    the arithmetic keeps the count inside the range. *)
Definition wrap_int (z : Z) : Z := (z + 2 ^ 31) mod 2 ^ 32 - 2 ^ 31.

(** ** class RC *)

Record RC := mkRC { count : Z }.

(** [void AddRef() { count++; }] *)
Definition AddRef (rc : RC) : RC := mkRC (wrap_int (count rc + 1)).

(** [int Release() { return --count; }]: the updated object and the
    returned value. *)
Definition Release (rc : RC) : RC * Z :=
  let c := wrap_int (count rc - 1) in (mkRC c, c).

(** ** Pointers, handles, outcomes *)

Definition NULL : N := 0%N.

(** The two fields of [SP<T>]: [T* pData; RC* reference;]. *)
Record SP := mkSP { pData : N; reference : N }.

Inductive ub : Set :=
| NullAccess      (* access through the null pointer *)
| Dangling        (* access through a pointer to a deleted object *)
| DoubleDelete    (* delete of an object that is not live *)
| DeadHandle      (* use of a handle object outside its lifetime *)
| LiveHandle.     (* construction over a handle object that is still live *)

Inductive result (A : Type) : Type :=
| Ok (a : A)
| Undefined (w : ub).

Arguments Ok {A} a.
Arguments Undefined {A} w.

Global Instance result_ret : MRet result := λ A a, Ok a.
Global Instance result_bind : MBind result := λ A B k r,
  match r with
  | Ok a => k a
  | Undefined w => Undefined w
  end.

Definition is_ok {A} (r : result A) : bool :=
  match r with Ok _ => true | Undefined _ => false end.

Section SmartPointer.

Context {T : Type}.

(** ** The store *)

Record state := mkState {
  rcs : gmap N RC;       (* live RC objects *)
  objs : gmap N T;       (* live T objects *)
  sps : gmap N SP;       (* live SP<T> objects, by the address of the handle *)
  next : N;              (* next address handed out by new *)
  deleted : list N       (* addresses of the T objects deleted so far *)
}.

Definition set_rcs (m : gmap N RC) (s : state) : state :=
  mkState m (objs s) (sps s) (next s) (deleted s).
Definition set_objs (m : gmap N T) (s : state) : state :=
  mkState (rcs s) m (sps s) (next s) (deleted s).
Definition set_sps (m : gmap N SP) (s : state) : state :=
  mkState (rcs s) (objs s) m (next s) (deleted s).

Definition empty_state : state := mkState ∅ ∅ ∅ 1%N [].

(** [new RC()]: value-initialisation zeroes [count]. *)
Definition new_RC (s : state) : N * state :=
  (next s, mkState (<[next s := mkRC 0]> (rcs s)) (objs s) (sps s)
                   (N.succ (next s)) (deleted s)).

(** [new T(v)] *)
Definition new_T (v : T) (s : state) : N * state :=
  (next s, mkState (rcs s) (<[next s := v]> (objs s)) (sps s)
                   (N.succ (next s)) (deleted s)).

Definition bad_pointer (p : N) : ub :=
  if N.eqb p NULL then NullAccess else Dangling.

(** [r->AddRef()] *)
Definition call_AddRef (r : N) (s : state) : result state :=
  match rcs s !! r with
  | Some rc => Ok (set_rcs (<[r := AddRef rc]> (rcs s)) s)
  | None => Undefined (bad_pointer r)
  end.

(** [r->Release()] *)
Definition call_Release (r : N) (s : state) : result (Z * state) :=
  match rcs s !! r with
  | Some rc =>
      let '(rc', n) := Release rc in
      Ok (n, set_rcs (<[r := rc']> (rcs s)) s)
  | None => Undefined (bad_pointer r)
  end.

(** [delete p] on a [T*]: nothing on the null pointer. *)
Definition delete_T (p : N) (s : state) : result state :=
  if N.eqb p NULL then Ok s
  else match objs s !! p with
       | Some _ =>
           Ok (mkState (rcs s) (delete p (objs s)) (sps s) (next s)
                       (p :: deleted s))
       | None => Undefined DoubleDelete
       end.

(** [delete r] on an [RC*]. *)
Definition delete_RC (r : N) (s : state) : result state :=
  if N.eqb r NULL then Ok s
  else match rcs s !! r with
       | Some _ => Ok (set_rcs (delete r (rcs s)) s)
       | None => Undefined DoubleDelete
       end.

(** Reading and writing the fields of the handle at address [this]. *)
Definition get_sp (this : N) (s : state) : result SP :=
  match sps s !! this with
  | Some sp => Ok sp
  | None => Undefined DeadHandle
  end.

Definition put_sp (this : N) (sp : SP) (s : state) : result state :=
  match sps s !! this with
  | Some _ => Ok (set_sps (<[this := sp]> (sps s)) s)
  | None => Undefined DeadHandle
  end.

(** The member initialiser list of a constructor: the handle object starts
    its lifetime with the given fields. *)
Definition init_sp (this : N) (sp : SP) (s : state) : result state :=
  match sps s !! this with
  | Some _ => Undefined LiveHandle
  | None => Ok (set_sps (<[this := sp]> (sps s)) s)
  end.

(** The end of the destructor: the handle object's lifetime is over. *)
Definition end_sp (this : N) (s : state) : state :=
  set_sps (delete this (sps s)) s.

(** ** template < typename T > class SP (the reference-counted one) *)

(** The body shared by the default constructor and [SP(T* pValue)]:
    [reference = new RC(); reference->AddRef();] *)
Definition ctor_body (this : N) (s : state) : result state :=
  let '(r, s) := new_RC s in
  sp ← get_sp this s;
  s ← put_sp this (mkSP (pData sp) r) s;
  sp ← get_sp this s;
  call_AddRef (reference sp) s.

(** [SP() : pData(0), reference(0)] *)
Definition SP_default (this : N) (s : state) : result state :=
  s ← init_sp this (mkSP NULL NULL) s;
  ctor_body this s.

(** [SP(T* pValue) : pData(pValue), reference(0)] *)
Definition SP_from (this : N) (pValue : N) (s : state) : result state :=
  s ← init_sp this (mkSP pValue NULL) s;
  ctor_body this s.

(** [SP(const SP<T>& sp) : pData(sp.pData), reference(sp.reference)] *)
Definition SP_copy (this : N) (sp : N) (s : state) : result state :=
  src ← get_sp sp s;
  s ← init_sp this (mkSP (pData src) (reference src)) s;
  t ← get_sp this s;
  call_AddRef (reference t) s.

(** [if (reference->Release() == 0) { delete pData; delete reference; }],
    the block shared by the destructor and the assignment operator. *)
Definition drop_binding (this : N) (s : state) : result state :=
  t ← get_sp this s;
  '(n, s) ← call_Release (reference t) s;
  if Z.eqb n 0 then
    t ← get_sp this s;
    s ← delete_T (pData t) s;
    t ← get_sp this s;
    delete_RC (reference t) s
  else Ok s.

(** [~SP()] *)
Definition SP_dtor (this : N) (s : state) : result state :=
  s ← drop_binding this s;
  Ok (end_sp this s).

(** [T* operator-> () { return pData; }] *)
Definition op_arrow (this : N) (s : state) : result N :=
  t ← get_sp this s;
  Ok (pData t).

(** [T& operator* () { return *pData; }]: the reference is the address of
    the object; forming it from a pointer to no object is undefined. *)
Definition op_star (this : N) (s : state) : result N :=
  t ← get_sp this s;
  match objs s !! pData t with
  | Some _ => Ok (pData t)
  | None => Undefined (bad_pointer (pData t))
  end.

(** [SP<T>& operator = (const SP<T>& sp)] *)
Definition SP_assign (this : N) (sp : N) (s : state) : result state :=
  if negb (N.eqb this sp) then
    s ← drop_binding this s;
    t ← get_sp this s;
    src ← get_sp sp s;
    s ← put_sp this (mkSP (pData src) (reference t)) s;
    t ← get_sp this s;
    src ← get_sp sp s;
    s ← put_sp this (mkSP (pData t) (reference src)) s;
    t ← get_sp this s;
    call_AddRef (reference t) s
  else Ok s.

(** Access to the pointee through a [T&] or a [T*]. *)
Definition load (p : N) (s : state) : result T :=
  match objs s !! p with
  | Some v => Ok v
  | None => Undefined (bad_pointer p)
  end.

Definition store (p : N) (v : T) (s : state) : result state :=
  match objs s !! p with
  | Some _ => Ok (set_objs (<[p := v]> (objs s)) s)
  | None => Undefined (bad_pointer p)
  end.

(** ** Client statements *)

Inductive stmt :=
| Default (h : N)              (* SP<T> h; *)
| New (h : N) (v : T)          (* SP<T> h(new T(v)); *)
| Copy (h src : N)             (* SP<T> h = src; *)
| Assign (h src : N)           (* h = src; *)
| Destroy (h : N).             (* h goes out of scope *)

Definition exec (c : stmt) (s : state) : result state :=
  match c with
  | Default h => SP_default h s
  | New h v => let '(p, s) := new_T v s in SP_from h p s
  | Copy h src => SP_copy h src s
  | Assign h src => SP_assign h src s
  | Destroy h => SP_dtor h s
  end.

Fixpoint run (cs : list stmt) (s : state) : result state :=
  match cs with
  | [] => Ok s
  | c :: cs => s ← exec c s; run cs s
  end.

(** A client program is well scoped when it constructs only handles that
    are not live, and uses and destroys only handles that are. *)
Definition allowed (live : gset N) (c : stmt) : bool :=
  match c with
  | Default h | New h _ => bool_decide (h ∉ live)
  | Copy h src => bool_decide (h ∉ live) && bool_decide (src ∈ live)
  | Assign h src => bool_decide (h ∈ live) && bool_decide (src ∈ live)
  | Destroy h => bool_decide (h ∈ live)
  end.

Definition after (live : gset N) (c : stmt) : gset N :=
  match c with
  | Default h | New h _ | Copy h _ => {[h]} ∪ live
  | Assign _ _ => live
  | Destroy h => live ∖ {[h]}
  end.

Fixpoint scoped (live : gset N) (cs : list stmt) : bool :=
  match cs with
  | [] => true
  | c :: cs => allowed live c && scoped (after live c) cs
  end.

(** ** Counting handles *)

(** Number of live handles whose [reference] is [r], and whose [pData] is
    [p]. *)
Definition tally (f : SP → N) (x : N) (m : gmap N SP) : nat :=
  size (filter (λ kv : N * SP, f kv.2 = x) m).

Definition owners (r : N) (m : gmap N SP) : nat := tally reference r m.

Definition holders (p : N) (m : gmap N SP) : nat := tally pData p m.

(** The value of the counter at [r]; a counter that does not exist (not
    yet allocated, or deleted after reaching zero) counts zero. *)
Definition counter (r : N) (s : state) : Z :=
  match rcs s !! r with
  | Some rc => count rc
  | None => 0
  end.

(** ** Well-formed stores *)

Record wf (s : state) : Prop := {
  wf_next : (0 < next s)%N;
  wf_rcs_addr : ∀ r c, rcs s !! r = Some c → (0 < r < next s)%N;
  wf_objs_addr : ∀ p v, objs s !! p = Some v → (0 < p < next s)%N;
  wf_deleted_addr : ∀ p, p ∈ deleted s → (0 < p < next s)%N;
  wf_deleted_nodup : NoDup (deleted s);
  wf_deleted_dead : ∀ p, p ∈ deleted s → objs s !! p = None;
  wf_count : ∀ r c, rcs s !! r = Some c →
    count c = Z.of_nat (owners r (sps s)) ∧ 1 ≤ count c ≤ INT_MAX;
  wf_ref : ∀ h sp, sps s !! h = Some sp → is_Some (rcs s !! reference sp);
  wf_data : ∀ h sp, sps s !! h = Some sp → pData sp ≠ NULL →
    is_Some (objs s !! pData sp);
  wf_same : ∀ h1 h2 sp1 sp2,
    sps s !! h1 = Some sp1 → sps s !! h2 = Some sp2 →
    reference sp1 = reference sp2 → pData sp1 = pData sp2;
  wf_excl : ∀ h1 h2 sp1 sp2,
    sps s !! h1 = Some sp1 → sps s !! h2 = Some sp2 →
    pData sp1 = pData sp2 → pData sp1 ≠ NULL →
    reference sp1 = reference sp2;
  wf_owned : ∀ p v, objs s !! p = Some v →
    ∃ h sp, sps s !! h = Some sp ∧ pData sp = p
}.

(** Room for one more handle: no counter is at [INT_MAX]. *)
Definition room (s : state) : Prop := Z.of_nat (size (sps s)) < INT_MAX.

(** ** Auxiliary notions for the statements *)

(** The store the destructor of [h] leaves: the last handle of a binding
    deletes payload and counter, any other one only decrements. *)
Definition dtor_result (h : N) (sp : SP) (c : RC) (s : state) : state :=
  if Z.eqb (count c) 1 then
    mkState (delete (reference sp) (rcs s)) (delete (pData sp) (objs s))
            (delete h (sps s)) (next s)
            (if N.eqb (pData sp) NULL then deleted s
             else pData sp :: deleted s)
  else
    mkState (<[reference sp := mkRC (count c - 1)]> (rcs s)) (objs s)
            (delete h (sps s)) (next s) (deleted s).

(** What a statement does to the counter of the binding it creates a
    handle on, and to the one it takes a handle from. *)
Definition counting (c : stmt) (s s' : state) : Prop :=
  match c with
  | Default h | New h _ | Copy h _ =>
      ∃ sp, sps s' !! h = Some sp ∧
        counter (reference sp) s' = counter (reference sp) s + 1
  | Destroy h =>
      ∃ sp, sps s !! h = Some sp ∧ sps s' !! h = None ∧
        counter (reference sp) s' = counter (reference sp) s - 1
  | Assign h src =>
      ∃ sp sp', sps s !! h = Some sp ∧ sps s' !! h = Some sp' ∧
        (reference sp ≠ reference sp' →
           counter (reference sp) s' = counter (reference sp) s - 1 ∧
           counter (reference sp') s' = counter (reference sp') s + 1) ∧
        (reference sp = reference sp' →
           counter (reference sp) s' = counter (reference sp) s)
  end.

(** [h] is the only live handle whose payload pointer is [p]. *)
Definition sole_owner (h p : N) (s : state) : Prop :=
  (∃ sp, sps s !! h = Some sp ∧ pData sp = p) ∧
  ∀ h' sp', sps s !! h' = Some sp' → pData sp' = p → h' = h.

(** Number of times [delete] was executed on the payload at [p]. *)
Definition releases (p : N) (s : state) : nat :=
  count_occ N.eq_dec (deleted s) p.

(** The payload at [p] exists or existed. *)
Definition tracked (p : N) (s : state) : Prop :=
  is_Some (objs s !! p) ∨ p ∈ deleted s.

(** The statement [c] takes the last handle away from a payload. *)
Definition drops_last (c : stmt) (p : N) (s : state) : Prop :=
  ∃ h, sole_owner h p s ∧
       (c = Destroy h ∨ ∃ src, src ≠ h ∧ c = Assign h src).

(** ** The assignment of the specification *)

(** Reassign as the specification words it, in its four steps; the check of
    step 1 compares the bindings. *)
Definition same_binding (a b : SP) : bool :=
  N.eqb (pData a) (pData b) && N.eqb (reference a) (reference b).

Definition Reassign_spec (target source : N) (s : state) : result state :=
  t ← get_sp target s;
  src ← get_sp source s;
  if same_binding t src then Ok s
  else
    '(n, s) ← call_Release (reference t) s;
    s ← (if Z.eqb n 0 then
           s ← delete_T (pData t) s;
           delete_RC (reference t) s
         else Ok s);
    s ← put_sp target (mkSP (pData src) (reference src)) s;
    call_AddRef (reference src) s.

(** ** Reading and writing through a handle *)

(** [*h] read, and [*h = w]. *)
Definition read (h : N) (s : state) : result T :=
  a ← op_star h s; load a s.

Definition write (h : N) (w : T) (s : state) : result state :=
  a ← op_star h s; store a w s.

(** ** The classes without a counter, and the client code

    The first two [SP] classes of the file (the one for [Person] and the
    template) hold [pData] alone; the template is modelled, the first one is
    its instance at [Person].  Neither declares a copy constructor, so a
    copy is the memberwise one. *)

Record PlainSP := mkPlainSP { plain_pData : N }.

(** [SP(T* pValue) : pData(pValue) {}] *)
Definition PlainSP_ctor (pValue : N) : PlainSP := mkPlainSP pValue.

(** The implicit copy constructor. *)
Definition PlainSP_copy (sp : PlainSP) : PlainSP :=
  mkPlainSP (plain_pData sp).

(** [~SP() { delete pData; }] *)
Definition PlainSP_dtor (this : PlainSP) (s : state) : result state :=
  delete_T (plain_pData this) s.

(** [T& operator* () { return *pData; }] *)
Definition PlainSP_star (this : PlainSP) (s : state) : result N :=
  match objs s !! plain_pData this with
  | Some _ => Ok (plain_pData this)
  | None => Undefined (bad_pointer (plain_pData this))
  end.

(** [T* operator-> () { return pData; }] *)
Definition PlainSP_arrow (this : PlainSP) : N := plain_pData this.

(** [a->Display()]: the member function reads the fields of the object at
    [a]; what it prints is not modelled. *)
Definition Display (a : N) (s : state) : result state :=
  _ ← load a s; Ok s.

(** The first [main]: [new], [Display], [delete] by hand. *)
Definition main_raw (v : T) (s : state) : result state :=
  let '(pPerson, s) := new_T v s in
  s ← Display pPerson s;
  delete_T pPerson s.

(** The second [main]: the same through a [PlainSP]. *)
Definition main_plain (v : T) (s : state) : result state :=
  let '(raw, s) := new_T v s in
  let p := PlainSP_ctor raw in
  s ← Display (PlainSP_arrow p) s;
  PlainSP_dtor p s.

(** The third [main]: a copy [q] of the [PlainSP] [p] in an inner scope. *)
Definition main_plain_copy (v : T) (s : state) : result state :=
  let '(raw, s) := new_T v s in
  let p := PlainSP_ctor raw in
  s ← Display (PlainSP_arrow p) s;
  let q := PlainSP_copy p in
  s ← Display (PlainSP_arrow q) s;
  s ← PlainSP_dtor q s;
  s ← Display (PlainSP_arrow p) s;
  PlainSP_dtor p s.

(** The last [main], on the counted [SP<T>]: [p], its copy [q], the empty
    [r] assigned from [p]; [r] and [q] leave the inner scope in the reverse
    order of their construction, [p] leaves last. *)
Definition main_counted (v : T) (p q r : N) (s : state) : result state :=
  let '(raw, s) := new_T v s in
  s ← SP_from p raw s;
  a ← op_arrow p s; s ← Display a s;
  s ← SP_copy q p s;
  a ← op_arrow q s; s ← Display a s;
  s ← SP_default r s;
  s ← SP_assign r p s;
  a ← op_arrow r s; s ← Display a s;
  s ← SP_dtor r s;
  s ← SP_dtor q s;
  a ← op_arrow p s; s ← Display a s;
  SP_dtor p s.

(** The handle a statement constructs, assigns to or destroys. *)
Definition subject (c : stmt) : N :=
  match c with
  | Default h | New h _ | Copy h _ | Assign h _ | Destroy h => h
  end.

(** ** Arithmetic of [int] *)

Lemma wrap_int_id z : INT_MIN ≤ z ≤ INT_MAX → wrap_int z = z.
Proof.
  unfold wrap_int, INT_MIN, INT_MAX. intros Hz.
  rewrite Z.mod_small; lia.
Qed.

(** ** Counting lemmas *)

Section Counting.

Context (f : SP → N).

Lemma cnt_insert_fresh x m h sp :
  m !! h = None →
  tally f x (<[h := sp]> m) = (if decide (f sp = x) then S (tally f x m) else tally f x m).
Proof.
  intros Hh. unfold tally. case_decide.
  - rewrite map_filter_insert_True by done.
    rewrite map_size_insert_None; [done|].
    apply map_lookup_filter_None. left. done.
  - rewrite map_filter_insert_not'; [done|done|]. intros y Hy. congruence.
Qed.

Lemma cnt_delete x m h sp :
  m !! h = Some sp →
  tally f x m = (if decide (f sp = x) then S (tally f x (delete h m))
             else tally f x (delete h m)).
Proof.
  intros Hh. rewrite <- (insert_id m h sp) at 1 by done.
  rewrite <- insert_delete_eq. apply cnt_insert_fresh, lookup_delete_eq.
Qed.

Lemma cnt_pos x m h sp : m !! h = Some sp → f sp = x → (0 < tally f x m)%nat.
Proof.
  intros Hh Hx. rewrite (cnt_delete x m h sp Hh).
  rewrite decide_True by done. lia.
Qed.

Lemma cnt_zero x m h sp : tally f x m = 0%nat → m !! h = Some sp → f sp ≠ x.
Proof.
  intros H0 Hh Hx. pose proof (cnt_pos x m h sp Hh Hx). lia.
Qed.

Lemma cnt_zero_intro x m :
  (∀ h sp, m !! h = Some sp → f sp ≠ x) → tally f x m = 0%nat.
Proof.
  intros H. unfold tally. apply map_size_empty_iff, map_empty. intros h.
  apply map_lookup_filter_None. right. intros sp Hh. simpl. eauto.
Qed.

Lemma cnt_le_size x m : (tally f x m ≤ size m)%nat.
Proof. apply map_subseteq_size, map_filter_subseteq. Qed.

Lemma cnt_exists x m : (0 < tally f x m)%nat → ∃ h sp, m !! h = Some sp ∧ f sp = x.
Proof.
  intros Hpos. unfold tally in Hpos.
  destruct (map_size_ne_0_lookup_1
              (filter (λ kv : N * SP, f kv.2 = x) m)) as [h [sp Hsp]]; [lia|].
  apply map_lookup_filter_Some in Hsp as [? ?]. eauto.
Qed.

End Counting.

(** ** What each member function computes *)

Tactic Notation "proj" :=
  cbn [pData reference rcs objs sps next deleted count].
Tactic Notation "proj" "in" hyp(H) :=
  cbn [pData reference rcs objs sps next deleted count] in H.

Ltac unfold_ops :=
  unfold SP_default, SP_from, SP_copy, SP_dtor, SP_assign, drop_binding,
    ctor_body, new_RC, new_T, call_AddRef, call_Release, delete_T, delete_RC,
    get_sp, put_sp, init_sp, end_sp, set_rcs, set_sps, set_objs, Release,
    AddRef, mbind, result_bind; proj.

Lemma mkSP_eta sp : mkSP (pData sp) (reference sp) = sp.
Proof. by destruct sp. Qed.

Ltac crunch :=
  repeat first
    [ progress proj
    | rewrite lookup_insert_eq
    | match goal with
      | H : _ !! _ = _ |- _ => rewrite H
      | H : N.eqb _ _ = _ |- _ => rewrite H
      | H : Z.eqb _ _ = _ |- _ => rewrite H
      end ].

Lemma SP_from_eq this p s :
  sps s !! this = None →
  SP_from this p s =
  Ok (mkState (<[next s := mkRC 1]> (rcs s)) (objs s)
              (<[this := mkSP p (next s)]> (sps s))
              (N.succ (next s)) (deleted s)).
Proof.
  intros Hthis. unfold_ops. crunch. by rewrite !insert_insert_eq.
Qed.

Lemma SP_default_eq this s : SP_default this s = SP_from this NULL s.
Proof. reflexivity. Qed.

Lemma SP_copy_eq this src sp c s :
  sps s !! src = Some sp →
  sps s !! this = None →
  rcs s !! reference sp = Some c →
  SP_copy this src s =
  Ok (mkState (<[reference sp := AddRef c]> (rcs s)) (objs s)
              (<[this := sp]> (sps s)) (next s) (deleted s)).
Proof.
  intros Hsrc Hthis Hc. unfold_ops. crunch. by rewrite mkSP_eta.
Qed.

(** The destructor of a handle that is not the last one of its binding. *)
Lemma drop_binding_shared this sp c s :
  sps s !! this = Some sp →
  rcs s !! reference sp = Some c →
  wrap_int (count c - 1) ≠ 0 →
  drop_binding this s =
  Ok (set_rcs (<[reference sp := mkRC (wrap_int (count c - 1))]> (rcs s)) s).
Proof.
  intros Hthis Hc Hn%Z.eqb_neq. unfold_ops. by crunch.
Qed.

(** The last handle of a binding without payload: only the counter is
    deleted. *)
Lemma drop_binding_last_empty this sp c s :
  sps s !! this = Some sp →
  rcs s !! reference sp = Some c →
  wrap_int (count c - 1) = 0 →
  reference sp ≠ NULL →
  pData sp = NULL →
  drop_binding this s = Ok (set_rcs (delete (reference sp) (rcs s)) s).
Proof.
  intros Hthis Hc Hn%Z.eqb_eq Hr%N.eqb_neq Hp%N.eqb_eq. unfold_ops.
  crunch. by rewrite delete_insert_eq.
Qed.

(** The last handle of a binding with a payload: payload and counter are
    deleted. *)
Lemma drop_binding_last_value this sp c v s :
  sps s !! this = Some sp →
  rcs s !! reference sp = Some c →
  wrap_int (count c - 1) = 0 →
  reference sp ≠ NULL →
  pData sp ≠ NULL →
  objs s !! pData sp = Some v →
  drop_binding this s =
  Ok (mkState (delete (reference sp) (rcs s))
              (delete (pData sp) (objs s)) (sps s) (next s)
              (pData sp :: deleted s)).
Proof.
  intros Hthis Hc Hn%Z.eqb_eq Hr%N.eqb_neq Hp%N.eqb_neq Hv. unfold_ops.
  crunch. by rewrite delete_insert_eq.
Qed.

Lemma bind_Ok {A B} (r : result A) (k : A → result B) b :
  (r ≫= k) = Ok b → ∃ a, r = Ok a ∧ k a = Ok b.
Proof. destruct r as [a|w]; [eauto|done]. Qed.

Lemma call_Release_sps r s n s1 :
  call_Release r s = Ok (n, s1) → sps s1 = sps s.
Proof.
  unfold call_Release. destruct (rcs s !! r); [|done]. by intros [= _ <-].
Qed.

Lemma delete_T_sps p s s1 : delete_T p s = Ok s1 → sps s1 = sps s.
Proof.
  unfold delete_T. destruct (N.eqb p NULL); [by intros [= <-]|].
  destruct (objs s !! p); [|done]. by intros [= <-].
Qed.

Lemma delete_RC_sps r s s1 : delete_RC r s = Ok s1 → sps s1 = sps s.
Proof.
  unfold delete_RC. destruct (N.eqb r NULL); [by intros [= <-]|].
  destruct (rcs s !! r); [|done]. by intros [= <-].
Qed.

(** The destructor's block never touches the handle objects. *)
Lemma drop_binding_sps this s s1 :
  drop_binding this s = Ok s1 → sps s1 = sps s.
Proof.
  unfold drop_binding. intros H.
  apply bind_Ok in H as (t & _ & H).
  apply bind_Ok in H as ([n s2] & HR%call_Release_sps & H).
  destruct (Z.eqb n 0).
  - apply bind_Ok in H as (t1 & _ & H).
    apply bind_Ok in H as (s3 & HT%delete_T_sps & H).
    apply bind_Ok in H as (t2 & _ & H%delete_RC_sps). congruence.
  - injection H as <-. done.
Qed.

(** Assignment between two different handle objects is the destructor's
    block followed by what the copy constructor does. *)
Lemma SP_assign_unfold this src s :
  this ≠ src →
  SP_assign this src s = (s ← SP_dtor this s; SP_copy this src s).
Proof.
  intros Hne. unfold SP_assign. rewrite (proj2 (N.eqb_neq this src) Hne).
  cbn [negb]. unfold SP_dtor.
  destruct (drop_binding this s) as [s1|w] eqn:Hdrop; [|done].
  pose proof (drop_binding_sps _ _ _ Hdrop) as Hsps.
  unfold_ops. rewrite lookup_delete_ne by done.
  destruct (sps s1 !! this) as [t|] eqn:Ht.
  2:{ unfold drop_binding, get_sp in Hdrop. rewrite <- Hsps, Ht in Hdrop.
      done. }
  destruct (sps s1 !! src) as [sp|] eqn:Hsrc; [|done].
  crunch. rewrite lookup_delete_eq, lookup_insert_ne by done. crunch.
  by rewrite insert_insert_eq, insert_delete_eq.
Qed.

(** ** Preservation of well-formedness *)

Lemma wf_null_objs s : wf s → objs s !! NULL = None.
Proof.
  intros Hwf. destruct (objs s !! NULL) as [v|] eqn:Hv; [|done].
  apply (wf_objs_addr s Hwf) in Hv. unfold NULL in Hv. lia.
Qed.

Lemma wf_ref_lt s h sp :
  wf s → sps s !! h = Some sp → (0 < reference sp < next s)%N.
Proof.
  intros Hwf Hh. destruct (wf_ref s Hwf h sp Hh) as [c Hc].
  by apply (wf_rcs_addr s Hwf) in Hc.
Qed.

Lemma wf_data_lt s h sp :
  wf s → sps s !! h = Some sp → pData sp ≠ NULL → (0 < pData sp < next s)%N.
Proof.
  intros Hwf Hh Hp. destruct (wf_data s Hwf h sp Hh Hp) as [c Hc].
  by apply (wf_objs_addr s Hwf) in Hc.
Qed.

Lemma wf_empty : wf empty_state.
Proof.
  split; cbn [empty_state rcs objs sps next deleted]; try done.
  - intros p Hp. by apply elem_of_nil in Hp.
  - constructor.
Qed.

(** A constructor binds the new handle [h] to a fresh counter at [r] and
    to the payload pointer [p], which is null or a fresh object. *)
Lemma wf_fresh s h p r objs' n' :
  wf s →
  sps s !! h = None →
  (next s ≤ r < n')%N →
  (p = NULL ∧ objs' = objs s) ∨
    (∃ v, (next s ≤ p < n')%N ∧ objs' = <[p := v]> (objs s)) →
  wf (mkState (<[r := mkRC 1]> (rcs s)) objs' (<[h := mkSP p r]> (sps s))
              n' (deleted s)).
Proof.
  intros Hwf Hh Hr Hp.
  pose proof (wf_next s Hwf) as Hnext.
  assert (∀ h' sp', sps s !! h' = Some sp' → reference sp' ≠ r) as Hfresh_r.
  { intros h' sp' Hh' Heq. apply (wf_ref_lt s h' sp' Hwf) in Hh'. lia. }
  assert (∀ h' sp', sps s !! h' = Some sp' → pData sp' ≠ NULL →
                    pData sp' ≠ p) as Hfresh_p.
  { intros h' sp' Hh' Hnn Heq.
    apply (wf_data_lt s h' sp' Hwf) in Hh'; [|done].
    destruct Hp as [[-> _]|(v & Hp & _)]; [done|lia]. }
  assert (∀ q v, objs s !! q = Some v → objs' !! q = Some v) as Hmono.
  { intros q v Hq. destruct Hp as [[_ ->]|(v' & Hp & ->)]; [done|].
    rewrite lookup_insert_ne; [done|].
    intros <-. apply (wf_objs_addr s Hwf) in Hq. lia. }
  split; proj.
  - lia.
  - intros r' c. rewrite lookup_insert. case_decide.
    + intros _. lia.
    + intros Hc%(wf_rcs_addr s Hwf). lia.
  - intros q v. destruct Hp as [[_ ->]|(v' & Hp & ->)].
    + intros Hq%(wf_objs_addr s Hwf). lia.
    + rewrite lookup_insert. case_decide.
      * intros _. lia.
      * intros Hq%(wf_objs_addr s Hwf). lia.
  - intros q Hq%(wf_deleted_addr s Hwf). lia.
  - apply (wf_deleted_nodup s Hwf).
  - intros q Hq. pose proof (wf_deleted_addr s Hwf q Hq).
    pose proof (wf_deleted_dead s Hwf q Hq).
    destruct Hp as [[_ ->]|(v' & Hp & ->)]; [done|].
    rewrite lookup_insert_ne; [done|lia].
  - intros r' c. unfold owners. rewrite cnt_insert_fresh by done. proj.
    rewrite lookup_insert. case_decide as Hrr.
    + intros [= <-]. subst r'.
      rewrite cnt_zero_intro; [|done]. proj. unfold INT_MAX. lia.
    + apply (wf_count s Hwf).
  - intros h' sp'. rewrite lookup_insert. case_decide.
    + intros [= <-]. proj. rewrite lookup_insert_eq. eauto.
    + intros Hh'. rewrite lookup_insert_ne; [by eapply wf_ref|].
      intros Heq. by eapply Hfresh_r.
  - intros h' sp'. rewrite lookup_insert. case_decide.
    + intros [= <-]. proj. intros Hnn.
      destruct Hp as [[-> _]|(v' & Hp & ->)]; [done|].
      rewrite lookup_insert_eq. eauto.
    + intros Hh' Hnn. destruct (wf_data s Hwf h' sp' Hh' Hnn) as [v Hv].
      eauto.
  - intros h1 h2 sp1 sp2. rewrite !lookup_insert.
    destruct (decide (h = h1)) as [?|?], (decide (h = h2)) as [?|?].
    + by intros [= <-] [= <-].
    + intros [= <-] H2 Heq. exfalso. by eapply Hfresh_r.
    + intros H1 [= <-] Heq. exfalso. by eapply Hfresh_r.
    + intros H1 H2. by eapply wf_same.
  - intros h1 h2 sp1 sp2. rewrite !lookup_insert.
    destruct (decide (h = h1)) as [?|?], (decide (h = h2)) as [?|?].
    + by intros [= <-] [= <-].
    + intros [= <-] H2 Heq Hnn. exfalso. proj in Heq. proj in Hnn.
      eapply Hfresh_p; [done| |done]. congruence.
    + intros H1 [= <-] Heq Hnn. exfalso. by eapply Hfresh_p.
    + intros H1 H2. by eapply wf_excl.
  - intros q v Hq. destruct (decide (q = p)) as [->|Hne].
    + exists h, (mkSP p r). by rewrite lookup_insert_eq.
    + assert (objs s !! q = Some v) as Hq'.
      { destruct Hp as [[_ ->]|(v' & Hp & ->)]; [done|].
        by rewrite lookup_insert_ne in Hq. }
      destruct (wf_owned s Hwf q v Hq') as (h' & sp' & Hh' & Hd).
      exists h', sp'. rewrite lookup_insert_ne; [done|]. congruence.
Qed.

Lemma wf_count_le_size s r c :
  wf s → rcs s !! r = Some c → count c ≤ Z.of_nat (size (sps s)).
Proof.
  intros Hwf Hc. destruct (wf_count s Hwf r c Hc) as [-> _].
  pose proof (cnt_le_size reference r (sps s)). unfold owners. lia.
Qed.

(** The copy constructor binds the new handle [h] to the binding of a live
    handle [src]. *)
Lemma wf_copy s h src sp c :
  wf s → room s →
  sps s !! src = Some sp →
  sps s !! h = None →
  rcs s !! reference sp = Some c →
  wf (mkState (<[reference sp := AddRef c]> (rcs s)) (objs s)
              (<[h := sp]> (sps s)) (next s) (deleted s)).
Proof.
  intros Hwf Hroom Hsrc Hh Hc.
  split; proj; try apply Hwf.
  - intros r' c'. rewrite lookup_insert. case_decide.
    + intros _. subst r'. by eapply wf_rcs_addr.
    + by apply wf_rcs_addr.
  - intros r' c'. unfold owners. rewrite cnt_insert_fresh by done.
    rewrite lookup_insert. case_decide as Hrr.
    + intros [= <-]. subst r'. unfold AddRef. proj.
      destruct (wf_count s Hwf _ c Hc) as [Hcnt Hrange].
      pose proof (wf_count_le_size s _ c Hwf Hc) as Hle.
      unfold room in Hroom. unfold owners in Hcnt.
      rewrite wrap_int_id by (unfold INT_MIN; lia). lia.
    + apply (wf_count s Hwf).
  - intros h' sp'. rewrite lookup_insert. case_decide.
    + intros [= <-]. rewrite lookup_insert_eq. eauto.
    + intros Hh'. rewrite lookup_insert. case_decide; [eauto|].
      by eapply wf_ref.
  - intros h' sp'. rewrite lookup_insert. case_decide.
    + intros [= <-]. by eapply wf_data.
    + by eapply wf_data.
  - intros h1 h2 sp1 sp2. rewrite !lookup_insert.
    destruct (decide (h = h1)) as [?|?], (decide (h = h2)) as [?|?].
    + by intros [= <-] [= <-].
    + intros [= <-] H2. by eapply wf_same.
    + intros H1 [= <-]. by eapply wf_same.
    + intros H1 H2. by eapply wf_same.
  - intros h1 h2 sp1 sp2. rewrite !lookup_insert.
    destruct (decide (h = h1)) as [?|?], (decide (h = h2)) as [?|?].
    + by intros [= <-] [= <-].
    + intros [= <-] H2. by eapply wf_excl.
    + intros H1 [= <-]. by eapply wf_excl.
    + intros H1 H2. by eapply wf_excl.
  - intros q v Hq. destruct (wf_owned s Hwf q v Hq) as (h' & sp' & Hh' & Hd).
    exists h', sp'. rewrite lookup_insert_ne; [done|]. congruence.
Qed.

Lemma SP_dtor_eq s h sp c :
  wf s →
  sps s !! h = Some sp →
  rcs s !! reference sp = Some c →
  SP_dtor h s = Ok (dtor_result h sp c s).
Proof.
  intros Hwf Hh Hc. unfold SP_dtor, dtor_result.
  destruct (wf_count s Hwf _ c Hc) as [Hcnt Hrange].
  pose proof (wf_ref_lt s h sp Hwf Hh) as Hr.
  assert (wrap_int (count c - 1) = count c - 1) as Hwrap.
  { apply wrap_int_id. unfold INT_MIN, INT_MAX in *. lia. }
  destruct (Z.eqb_spec (count c) 1) as [H1|H1].
  - destruct (N.eqb_spec (pData sp) NULL) as [Hnull|Hnn].
    + rewrite (drop_binding_last_empty h sp c s); try done.
      * unfold end_sp, set_sps, set_rcs. proj. rewrite Hnull.
        rewrite (delete_id (objs s)); [done|]. by apply wf_null_objs.
      * lia.
      * unfold NULL. lia.
    + destruct (wf_data s Hwf h sp Hh Hnn) as [v Hv].
      rewrite (drop_binding_last_value h sp c v s); try done.
      * lia.
      * unfold NULL. lia.
  - rewrite (drop_binding_shared h sp c s); try done.
    + by rewrite Hwrap.
    + lia.
Qed.

Lemma wf_dtor s h sp c :
  wf s →
  sps s !! h = Some sp →
  rcs s !! reference sp = Some c →
  wf (dtor_result h sp c s).
Proof.
  intros Hwf Hh Hc. unfold dtor_result.
  destruct (wf_count s Hwf _ c Hc) as [Hcnt Hrange].
  unfold owners in Hcnt. rewrite (cnt_delete reference _ _ h sp Hh) in Hcnt.
  rewrite decide_True in Hcnt by done.
  assert (∀ r', r' ≠ reference sp →
            owners r' (delete h (sps s)) = owners r' (sps s)) as Hother.
  { intros r' Hne. unfold owners. rewrite (cnt_delete reference r' _ h sp Hh).
    by rewrite decide_False. }
  assert (∀ h1 h2 sp1 sp2,
            delete h (sps s) !! h1 = Some sp1 →
            delete h (sps s) !! h2 = Some sp2 →
            reference sp1 = reference sp2 → pData sp1 = pData sp2) as Hsame.
  { intros h1 h2 sp1 sp2 [_ H1]%lookup_delete_Some [_ H2]%lookup_delete_Some.
    by eapply wf_same. }
  assert (∀ h1 h2 sp1 sp2,
            delete h (sps s) !! h1 = Some sp1 →
            delete h (sps s) !! h2 = Some sp2 →
            pData sp1 = pData sp2 → pData sp1 ≠ NULL →
            reference sp1 = reference sp2) as Hexcl.
  { intros h1 h2 sp1 sp2 [_ H1]%lookup_delete_Some [_ H2]%lookup_delete_Some.
    by eapply wf_excl. }
  destruct (Z.eqb_spec (count c) 1) as [H1|H1].
  - assert (∀ h' sp', delete h (sps s) !! h' = Some sp' →
                      reference sp' ≠ reference sp) as Hlast.
    { intros h' sp'. apply (cnt_zero reference). lia. }
    assert (∀ h' sp', delete h (sps s) !! h' = Some sp' →
                      pData sp' ≠ NULL → pData sp' ≠ pData sp) as Hlastp.
    { intros h' sp' Hh' Hnn Heq. eapply Hlast; [done|].
      apply lookup_delete_Some in Hh' as [_ Hh'].
      by eapply (wf_excl s Hwf h' h). }
    split; proj; try done; try apply Hwf.
    + intros r' c' [_ Hr']%lookup_delete_Some. by eapply wf_rcs_addr.
    + intros q v [_ Hq]%lookup_delete_Some. by eapply wf_objs_addr.
    + intros q. destruct (N.eqb_spec (pData sp) NULL) as [Hnull|Hnn].
      * apply (wf_deleted_addr s Hwf).
      * intros [->|Hq]%elem_of_cons; [by eapply wf_data_lt|].
        by apply (wf_deleted_addr s Hwf).
    + destruct (N.eqb_spec (pData sp) NULL) as [Hnull|Hnn];
        [apply Hwf|].
      apply NoDup_cons. split; [|apply Hwf].
      intros Hin%(wf_deleted_dead s Hwf).
      destruct (wf_data s Hwf h sp Hh Hnn) as [v Hv]. congruence.
    + intros q Hq. apply lookup_delete_None.
      destruct (decide (pData sp = q)) as [|Hne]; [by left|right].
      apply (wf_deleted_dead s Hwf).
      destruct (N.eqb_spec (pData sp) NULL) as [Hnull|Hnn]; [done|].
      apply elem_of_cons in Hq as [->|Hq]; done.
    + intros r' c' [Hne Hr']%lookup_delete_Some.
      rewrite Hother by done. by apply (wf_count s Hwf).
    + intros h' sp' Hh'. rewrite lookup_delete_ne by (symmetry; eauto).
      apply lookup_delete_Some in Hh' as [_ Hh']. by eapply wf_ref.
    + intros h' sp' Hh' Hnn.
      rewrite lookup_delete_ne by (symmetry; eauto).
      apply lookup_delete_Some in Hh' as [_ Hh']. by eapply wf_data.
    + intros q v [Hne Hq]%lookup_delete_Some.
      destruct (wf_owned s Hwf q v Hq) as (h' & sp' & Hh' & Hd).
      exists h', sp'. split; [|done]. apply lookup_delete_Some.
      split; [|done]. intros <-. congruence.
  - split; proj; try done; try apply Hwf.
    + intros r' c'. rewrite lookup_insert. case_decide.
      * intros _. subst r'. by eapply wf_rcs_addr.
      * by apply wf_rcs_addr.
    + intros r' c'. rewrite lookup_insert. case_decide as Hrr.
      * intros [= <-]. subst r'. proj. unfold owners. lia.
      * rewrite Hother by done. by apply (wf_count s Hwf).
    + intros h' sp' [_ Hh']%lookup_delete_Some.
      rewrite lookup_insert. case_decide; [eauto|]. by eapply wf_ref.
    + intros h' sp' [_ Hh']%lookup_delete_Some. by eapply wf_data.
    + intros q v Hq.
      destruct (wf_owned s Hwf q v Hq) as (h' & sp' & Hh' & Hd).
      destruct (decide (h' = h)) as [->|Hne].
      * destruct (cnt_exists reference (reference sp) (delete h (sps s)))
          as (h1 & sp1 & Hh1 & Hr1); [lia|].
        exists h1, sp1. split; [done|].
        apply lookup_delete_Some in Hh1 as [_ Hh1].
        rewrite <- Hd. assert (sp' = sp) as -> by congruence.
        by eapply (wf_same s Hwf h1 h).
      * exists h', sp'. split; [|done]. by apply lookup_delete_Some.
Qed.

(** ** Every allowed statement runs, and keeps the store well formed *)

Lemma exec_New_eq h v s :
  sps s !! h = None →
  exec (New h v) s =
  Ok (mkState (<[N.succ (next s) := mkRC 1]> (rcs s))
              (<[next s := v]> (objs s))
              (<[h := mkSP (next s) (N.succ (next s))]> (sps s))
              (N.succ (N.succ (next s))) (deleted s)).
Proof.
  intros Hh. unfold exec, new_T. by rewrite SP_from_eq.
Qed.

Lemma not_live s h : h ∉ dom (sps s) → sps s !! h = None.
Proof. apply not_elem_of_dom. Qed.

Lemma is_live s h : h ∈ dom (sps s) → ∃ sp, sps s !! h = Some sp.
Proof. intros [sp Hsp]%elem_of_dom. eauto. Qed.

Lemma room_le s s' :
  room s → (size (sps s') ≤ size (sps s))%nat → room s'.
Proof. unfold room. lia. Qed.

Lemma AddRef_count s r c :
  wf s → room s → rcs s !! r = Some c → count (AddRef c) = count c + 1.
Proof.
  intros Hwf Hroom Hc. unfold AddRef. proj.
  destruct (wf_count s Hwf r c Hc) as [_ Hrange].
  pose proof (wf_count_le_size s r c Hwf Hc). unfold room in Hroom.
  apply wrap_int_id. unfold INT_MIN. lia.
Qed.

Lemma dtor_result_sps h sp c s : sps (dtor_result h sp c s) = delete h (sps s).
Proof. unfold dtor_result. by destruct (Z.eqb _ _). Qed.

Lemma dtor_result_next h sp c s : next (dtor_result h sp c s) = next s.
Proof. unfold dtor_result. by destruct (Z.eqb _ _). Qed.

Lemma dtor_result_counter h sp c s :
  rcs s !! reference sp = Some c →
  counter (reference sp) (dtor_result h sp c s) = counter (reference sp) s - 1.
Proof.
  intros Hc. unfold counter, dtor_result. rewrite Hc.
  destruct (Z.eqb_spec (count c) 1) as [H1|H1]; proj.
  - rewrite lookup_delete_eq. lia.
  - by rewrite lookup_insert_eq.
Qed.

Lemma dtor_result_rcs_other h sp c s r :
  r ≠ reference sp → rcs (dtor_result h sp c s) !! r = rcs s !! r.
Proof.
  intros Hne. unfold dtor_result. destruct (Z.eqb _ _); proj.
  - by rewrite lookup_delete_ne.
  - by rewrite lookup_insert_ne.
Qed.

Lemma exec_Assign_eq s h src sp sp' c :
  wf s → room s →
  h ≠ src →
  sps s !! h = Some sp →
  sps s !! src = Some sp' →
  rcs s !! reference sp = Some c →
  ∃ c', rcs (dtor_result h sp c s) !! reference sp' = Some c' ∧
    count (AddRef c') = count c' + 1 ∧
    SP_assign h src s =
    Ok (mkState (<[reference sp' := AddRef c']> (rcs (dtor_result h sp c s)))
                (objs (dtor_result h sp c s)) (<[h := sp']> (sps s))
                (next s) (deleted (dtor_result h sp c s))) ∧
    wf (mkState (<[reference sp' := AddRef c']> (rcs (dtor_result h sp c s)))
                (objs (dtor_result h sp c s)) (<[h := sp']> (sps s))
                (next s) (deleted (dtor_result h sp c s))).
Proof.
  intros Hwf Hroom Hne Hh Hsrc Hc.
  pose proof (wf_dtor s h sp c Hwf Hh Hc) as Hwf1.
  assert (sps (dtor_result h sp c s) = delete h (sps s)) as Hsps1.
  { unfold dtor_result. by destruct (Z.eqb _ _). }
  assert (next (dtor_result h sp c s) = next s) as Hnext1.
  { unfold dtor_result. by destruct (Z.eqb _ _). }
  assert (sps (dtor_result h sp c s) !! src = Some sp') as Hsrc1.
  { rewrite Hsps1. by rewrite lookup_delete_ne. }
  assert (sps (dtor_result h sp c s) !! h = None) as Hh1.
  { rewrite Hsps1. by rewrite lookup_delete_eq. }
  destruct (wf_ref _ Hwf1 src sp' Hsrc1) as [c' Hc'].
  assert (room (dtor_result h sp c s)) as Hroom1.
  { eapply room_le; [done|]. rewrite Hsps1.
    rewrite map_size_delete_Some by eauto. lia. }
  exists c'. split; [done|]. split; [by eapply AddRef_count|].
  pose proof (wf_copy _ h src sp' c' Hwf1 Hroom1 Hsrc1 Hh1 Hc') as Hwf2.
  rewrite Hsps1, Hnext1, insert_delete_eq in Hwf2. split; [|done].
  rewrite SP_assign_unfold by done.
  rewrite (SP_dtor_eq s h sp c) by done.
  unfold mbind, result_bind.
  rewrite (SP_copy_eq h src sp' c') by done.
  by rewrite Hsps1, Hnext1, insert_delete_eq.
Qed.

Lemma exec_ok live c s :
  wf s → room s →
  dom (sps s) = live →
  allowed live c = true →
  ∃ s', exec c s = Ok s' ∧ wf s' ∧ dom (sps s') = after live c ∧
        (size (sps s') ≤ S (size (sps s)))%nat.
Proof.
  intros Hwf Hroom <- Hc.
  pose proof (wf_next s Hwf) as Hnext.
  destruct c as [h|h v|h src|h src|h]; cbn [allowed after] in *.
  - apply bool_decide_eq_true, not_live in Hc.
    eexists. split; [by apply SP_from_eq|]. proj.
    split; [|split].
    + apply wf_fresh; [done|done|lia|by left].
    + by rewrite dom_insert_L.
    + by rewrite map_size_insert_None.
  - apply bool_decide_eq_true, not_live in Hc.
    eexists. split; [by apply exec_New_eq|]. proj.
    split; [|split].
    + apply wf_fresh; [done|done|lia|right]. exists v. split; [lia|done].
    + by rewrite dom_insert_L.
    + by rewrite map_size_insert_None.
  - apply andb_true_iff in Hc as [Hh%bool_decide_eq_true%not_live
                                    Hsrc%bool_decide_eq_true%is_live].
    destruct Hsrc as [sp Hsrc]. destruct (wf_ref s Hwf src sp Hsrc) as [c Hcc].
    eexists. split; [by eapply SP_copy_eq|]. proj.
    split; [|split].
    + by eapply wf_copy.
    + by rewrite dom_insert_L.
    + by rewrite map_size_insert_None.
  - apply andb_true_iff in Hc as [Hh%bool_decide_eq_true%is_live
                                    Hsrc%bool_decide_eq_true%is_live].
    destruct Hh as [sp Hh]. destruct Hsrc as [sp' Hsrc].
    destruct (decide (h = src)) as [->|Hne].
    + exists s. unfold exec, SP_assign. rewrite N.eqb_refl. cbn [negb].
      split; [done|]. split; [done|]. split; [done|lia].
    + destruct (wf_ref s Hwf h sp Hh) as [c Hcc].
      destruct (exec_Assign_eq s h src sp sp' c) as (c' & _ & _ & Heq & Hwf');
        try done.
      eexists. split; [exact Heq|]. proj. split; [done|split].
      * rewrite dom_insert_L. apply elem_of_dom_2 in Hh.
        apply subseteq_union_1_L. by apply singleton_subseteq_l.
      * rewrite map_size_insert_Some by eauto. lia.
  - apply bool_decide_eq_true, is_live in Hc as [sp Hh].
    destruct (wf_ref s Hwf h sp Hh) as [c Hcc].
    exists (dtor_result h sp c s). split; [by apply SP_dtor_eq|].
    split; [by apply wf_dtor|].
    assert (sps (dtor_result h sp c s) = delete h (sps s)) as ->.
    { unfold dtor_result. by destruct (Z.eqb _ _). }
    split; [by rewrite dom_delete_L|].
    rewrite map_size_delete_Some by eauto. lia.
Qed.

(** ** Whole programs *)

Lemma run_app pre post s :
  run (pre ++ post) s = (s1 ← run pre s; run post s1).
Proof.
  revert s. induction pre as [|c pre IH]; intros s; [done|].
  cbn [app run]. destruct (exec c s) as [s1|w]; [apply IH|done].
Qed.

Lemma scoped_app live pre post :
  scoped live (pre ++ post) = true → scoped live pre = true.
Proof.
  revert live. induction pre as [|c pre IH]; intros live; [done|].
  cbn [app scoped]. intros [Hc Hrest]%andb_true_iff.
  apply andb_true_iff. split; [done|]. by apply IH.
Qed.

(** A well-scoped program runs to the end from a well-formed store, and
    every property that its statements preserve holds at the end. *)
Lemma run_invariant (P : state → Prop) :
  (∀ c s s', wf s → room s → allowed (dom (sps s)) c = true →
             exec c s = Ok s' → P s → P s') →
  ∀ cs s,
    wf s →
    scoped (dom (sps s)) cs = true →
    Z.of_nat (size (sps s)) + Z.of_nat (length cs) < INT_MAX →
    P s →
    ∃ s', run cs s = Ok s' ∧ wf s' ∧ room s' ∧ P s'.
Proof.
  intros Hstep cs. induction cs as [|c cs IH]; intros s Hwf Hsc Hlen HP.
  - exists s. cbn [length] in Hlen. unfold room. split; [done|].
    split; [done|]. split; [lia|done].
  - cbn [scoped] in Hsc. apply andb_true_iff in Hsc as [Hc Hsc].
    cbn [length] in Hlen.
    assert (room s) as Hroom by (unfold room; lia).
    destruct (exec_ok _ c s Hwf Hroom eq_refl Hc)
      as (s1 & Hexec & Hwf1 & Hdom & Hsize).
    destruct (IH s1) as (s' & Hrun & Hwf' & Hroom' & HP').
    + done.
    + by rewrite Hdom.
    + lia.
    + by apply (Hstep c s s1).
    + exists s'. cbn [run]. rewrite Hexec. done.
Qed.

Lemma run_ok cs s :
  wf s →
  scoped (dom (sps s)) cs = true →
  Z.of_nat (size (sps s)) + Z.of_nat (length cs) < INT_MAX →
  ∃ s', run cs s = Ok s' ∧ wf s' ∧ room s'.
Proof.
  intros Hwf Hsc Hlen.
  destruct (run_invariant (λ _, True) (λ _ _ _ _ _ _ _ _, I) cs s)
    as (s' & ? & ? & ? & _); eauto.
Qed.

(** The same at every point of the program: each prefix runs, and the
    statement that follows it is allowed in the store it reaches. *)
Lemma run_prefix cs s pre post :
  wf s →
  scoped (dom (sps s)) cs = true →
  Z.of_nat (size (sps s)) + Z.of_nat (length cs) < INT_MAX →
  cs = pre ++ post →
  ∃ s1, run pre s = Ok s1 ∧ wf s1 ∧
        Z.of_nat (size (sps s1)) + Z.of_nat (length post) < INT_MAX ∧
        scoped (dom (sps s1)) post = true.
Proof.
  intros Hwf Hsc Hlen ->. revert s Hwf Hsc Hlen.
  induction pre as [|c pre IH]; intros s Hwf Hsc Hlen.
  - exists s. done.
  - cbn [app scoped length] in *. apply andb_true_iff in Hsc as [Hc Hsc].
    assert (room s) as Hroom by (unfold room; lia).
    destruct (exec_ok _ c s Hwf Hroom eq_refl Hc)
      as (s1 & Hexec & Hwf1 & Hdom & Hsize).
    destruct (IH s1) as (s' & Hrun & Hrest); [done|by rewrite Hdom|lia|].
    exists s'. cbn [run]. rewrite Hexec. done.
Qed.

(** ** Counting along a statement *)

Lemma counter_fresh s r : wf s → (next s ≤ r)%N → counter r s = 0.
Proof.
  intros Hwf Hr. unfold counter.
  destruct (rcs s !! r) as [c|] eqn:Hc; [|done].
  apply (wf_rcs_addr s Hwf) in Hc. lia.
Qed.

Lemma exec_counting c s s' :
  wf s → room s →
  allowed (dom (sps s)) c = true →
  exec c s = Ok s' →
  counting c s s'.
Proof.
  intros Hwf Hroom Hc Hexec.
  destruct c as [h|h v|h src|h src|h]; cbn [allowed counting] in *.
  - apply bool_decide_eq_true, not_live in Hc.
    cbn [exec] in Hexec. rewrite SP_default_eq, SP_from_eq in Hexec by done.
    injection Hexec as <-. eexists. proj. rewrite lookup_insert_eq.
    split; [done|]. proj. rewrite (counter_fresh s) by (done || lia).
    unfold counter. proj. by rewrite lookup_insert_eq.
  - apply bool_decide_eq_true, not_live in Hc.
    rewrite exec_New_eq in Hexec by done.
    injection Hexec as <-. eexists. proj. rewrite lookup_insert_eq.
    split; [done|]. proj. rewrite (counter_fresh s) by (done || lia).
    unfold counter. proj. by rewrite lookup_insert_eq.
  - apply andb_true_iff in Hc as [Hh%bool_decide_eq_true%not_live
                                    Hsrc%bool_decide_eq_true%is_live].
    destruct Hsrc as [sp Hsrc]. destruct (wf_ref s Hwf src sp Hsrc) as [c Hcc].
    cbn [exec] in Hexec. rewrite (SP_copy_eq h src sp c) in Hexec by done.
    injection Hexec as <-. exists sp. proj. rewrite lookup_insert_eq.
    split; [done|]. unfold counter. proj. rewrite lookup_insert_eq, Hcc.
    by eapply AddRef_count.
  - apply andb_true_iff in Hc as [Hh%bool_decide_eq_true%is_live
                                    Hsrc%bool_decide_eq_true%is_live].
    destruct Hh as [sp Hh]. destruct Hsrc as [sp' Hsrc].
    cbn [exec] in Hexec.
    destruct (decide (h = src)) as [->|Hne].
    + unfold SP_assign in Hexec. rewrite N.eqb_refl in Hexec.
      injection Hexec as <-. exists sp, sp. done.
    + destruct (wf_ref s Hwf h sp Hh) as [c Hcc].
      destruct (exec_Assign_eq s h src sp sp' c)
        as (c' & Hc' & Hadd & Heq & _); try done.
      rewrite Heq in Hexec. injection Hexec as <-.
      exists sp, sp'. proj. rewrite lookup_insert_eq.
      split; [done|]. split; [done|]. unfold counter at 1 3 5. proj.
      split.
      * intros Hrr. rewrite lookup_insert_ne by done.
        rewrite lookup_insert_eq, Hadd.
        rewrite dtor_result_rcs_other in Hc' by done.
        pose proof (dtor_result_counter h sp c s Hcc) as Hd.
        unfold counter in Hd at 1. unfold counter at 2. rewrite Hc'.
        split; [done|lia].
      * intros Hrr. rewrite <- Hrr in *. rewrite lookup_insert_eq, Hadd.
        pose proof (dtor_result_counter h sp c s Hcc) as Hd.
        unfold counter in Hd at 1. rewrite Hc' in Hd. lia.
  - apply bool_decide_eq_true, is_live in Hc as [sp Hh].
    destruct (wf_ref s Hwf h sp Hh) as [c Hcc].
    cbn [exec] in Hexec. rewrite (SP_dtor_eq s h sp c) in Hexec by done.
    injection Hexec as <-. exists sp. split; [done|].
    rewrite dtor_result_sps, lookup_delete_eq. split; [done|].
    by apply dtor_result_counter.
Qed.

(** ** Releases *)

Lemma dtor_result_cases h sp c s :
  wf s →
  sps s !! h = Some sp →
  rcs s !! reference sp = Some c →
  (deleted (dtor_result h sp c s) = deleted s ∧
   objs (dtor_result h sp c s) = objs s ∧
   (pData sp = NULL ∨ count c ≠ 1)) ∨
  (pData sp ≠ NULL ∧ count c = 1 ∧ sole_owner h (pData sp) s ∧
   deleted (dtor_result h sp c s) = pData sp :: deleted s ∧
   objs (dtor_result h sp c s) = delete (pData sp) (objs s)).
Proof.
  intros Hwf Hh Hc. unfold dtor_result.
  destruct (Z.eqb_spec (count c) 1) as [H1|H1]; proj.
  - destruct (N.eqb_spec (pData sp) NULL) as [Hnull|Hnn].
    + left. split; [done|]. split; [|by left]. rewrite Hnull.
      apply delete_id. by apply wf_null_objs.
    + right. split; [done|]. split; [done|]. split; [|done].
      split; [eauto|]. intros h' sp' Hh' Hp.
      destruct (decide (h' = h)) as [|Hne]; [done|]. exfalso.
      destruct (wf_count s Hwf _ c Hc) as [Hcnt _]. unfold owners in Hcnt.
      rewrite (cnt_delete reference _ _ h sp Hh) in Hcnt.
      rewrite decide_True in Hcnt by done.
      eapply (cnt_zero reference (reference sp) (delete h (sps s)) h' sp').
      * lia.
      * by apply lookup_delete_Some.
      * eapply (wf_excl s Hwf h' h); [done|done|done|congruence].
  - left. split; [done|]. split; [done|by right].
Qed.

(** A statement either deletes no payload, or it is the destruction or the
    reassignment of the only handle of the single payload it deletes. *)
Lemma exec_release_cases c s s' :
  wf s → room s →
  allowed (dom (sps s)) c = true →
  exec c s = Ok s' →
  (deleted s' = deleted s ∧
   ∀ q, is_Some (objs s !! q) → is_Some (objs s' !! q)) ∨
  (∃ p, p ≠ NULL ∧ drops_last c p s ∧
        deleted s' = p :: deleted s ∧ objs s' = delete p (objs s)).
Proof.
  intros Hwf Hroom Hc Hexec.
  destruct c as [h|h v|h src|h src|h]; cbn [allowed] in *.
  - apply bool_decide_eq_true, not_live in Hc.
    cbn [exec] in Hexec. rewrite SP_default_eq, SP_from_eq in Hexec by done.
    injection Hexec as <-. by left.
  - apply bool_decide_eq_true, not_live in Hc.
    rewrite exec_New_eq in Hexec by done.
    injection Hexec as <-. left. proj. split; [done|].
    intros q [w Hq]. rewrite lookup_insert. case_decide; eauto.
  - apply andb_true_iff in Hc as [Hh%bool_decide_eq_true%not_live
                                    Hsrc%bool_decide_eq_true%is_live].
    destruct Hsrc as [sp Hsrc]. destruct (wf_ref s Hwf src sp Hsrc) as [c Hcc].
    cbn [exec] in Hexec. rewrite (SP_copy_eq h src sp c) in Hexec by done.
    injection Hexec as <-. by left.
  - apply andb_true_iff in Hc as [Hh%bool_decide_eq_true%is_live
                                    Hsrc%bool_decide_eq_true%is_live].
    destruct Hh as [sp Hh]. destruct Hsrc as [sp' Hsrc].
    cbn [exec] in Hexec.
    destruct (decide (h = src)) as [->|Hne].
    + unfold SP_assign in Hexec. rewrite N.eqb_refl in Hexec.
      injection Hexec as <-. by left.
    + destruct (wf_ref s Hwf h sp Hh) as [c Hcc].
      destruct (exec_Assign_eq s h src sp sp' c)
        as (c' & Hc' & Hadd & Heq & _); try done.
      rewrite Heq in Hexec. injection Hexec as <-. proj.
      destruct (dtor_result_cases h sp c s Hwf Hh Hcc)
        as [(-> & -> & _)|(Hnn & _ & Hsole & -> & ->)]; [by left|].
      right. exists (pData sp). split; [done|]. split; [|done].
      exists h. split; [done|]. right. exists src. done.
  - apply bool_decide_eq_true, is_live in Hc as [sp Hh].
    destruct (wf_ref s Hwf h sp Hh) as [c Hcc].
    cbn [exec] in Hexec. rewrite (SP_dtor_eq s h sp c) in Hexec by done.
    injection Hexec as <-.
    destruct (dtor_result_cases h sp c s Hwf Hh Hcc)
      as [(-> & -> & _)|(Hnn & _ & Hsole & -> & ->)]; [by left|].
    right. exists (pData sp). split; [done|]. split; [|done].
    exists h. split; [done|]. by left.
Qed.

Lemma exec_tracked p c s s' :
  wf s → room s →
  allowed (dom (sps s)) c = true →
  exec c s = Ok s' →
  tracked p s → tracked p s'.
Proof.
  intros Hwf Hroom Hc Hexec Htr.
  destruct (exec_release_cases c s s' Hwf Hroom Hc Hexec)
    as [[Hdel Hobjs]|(q & _ & _ & Hdel & Hobjs)]; unfold tracked.
  - rewrite Hdel. destruct Htr as [?|?]; [left; eauto|by right].
  - rewrite Hdel, Hobjs. destruct (decide (p = q)) as [->|Hne].
    + right. apply elem_of_cons. by left.
    + destruct Htr as [?|?].
      * left. by rewrite lookup_delete_ne.
      * right. apply elem_of_cons. by right.
Qed.

(** In a well-formed store a payload that exists has a holder and was
    never deleted; one that existed has no holder and was deleted once. *)
Lemma tracked_released p s :
  wf s → p ≠ NULL → tracked p s →
  releases p s = (if Nat.eqb (holders p (sps s)) 0%nat then 1 else 0)%nat ∧
  (is_Some (objs s !! p) ↔ holders p (sps s) ≠ 0%nat).
Proof.
  intros Hwf Hnn [[v Hv]|Hdel]; unfold releases.
  - destruct (wf_owned s Hwf p v Hv) as (h & sp & Hh & Hp).
    pose proof (cnt_pos pData p (sps s) h sp Hh Hp) as Hpos.
    unfold holders.
    destruct (Nat.eqb_spec (tally pData p (sps s)) 0%nat) as [|_]; [lia|].
    split; [|split; [lia|eauto]].
    apply count_occ_not_In. rewrite <- list_elem_of_In.
    intros Hin%(wf_deleted_dead s Hwf). congruence.
  - pose proof (wf_deleted_dead s Hwf p Hdel) as Hdead.
    assert (holders p (sps s) = 0%nat) as ->.
    { apply cnt_zero_intro. intros h sp Hh Hp.
      destruct (wf_data s Hwf h sp Hh) as [v Hv]; congruence. }
    cbn [Nat.eqb]. split.
    + pose proof (wf_deleted_nodup s Hwf) as Hnd.
      apply NoDup_ListNoDup in Hnd.
      pose proof (proj1 (NoDup_count_occ N.eq_dec _) Hnd p).
      apply list_elem_of_In in Hdel.
      apply (count_occ_In N.eq_dec) in Hdel. lia.
    + rewrite Hdead. split; [by intros [? ?]|done].
Qed.

(** ** The claims on whole programs *)

Lemma empty_state_dom : dom (sps empty_state) = ∅.
Proof. apply dom_empty_L. Qed.

Lemma empty_state_size : size (sps empty_state) = 0%nat.
Proof. apply map_size_empty. Qed.

(** C2: at every point of every well-scoped program started in the empty
    store, each counter holds the number of live handles bound to it; the
    statement executed next runs, and it raises by one the counter it binds
    a new handle to (default construction, construction from a fresh value,
    copy, the target of an assignment) and lowers by one the counter it
    unbinds a handle from (destruction, the former binding of an assignment
    to another binding). *)
Theorem count_matches_live_handles (cs : list stmt) :
  scoped ∅ cs = true →
  Z.of_nat (length cs) < INT_MAX →
  ∀ pre post, cs = pre ++ post →
  ∃ s, run pre empty_state = Ok s ∧
    (∀ r c, rcs s !! r = Some c → count c = Z.of_nat (owners r (sps s))) ∧
    (∀ c post', post = c :: post' →
       ∃ s', exec c s = Ok s' ∧ counting c s s').
Proof.
  intros Hsc Hlen pre post Hcs.
  destruct (run_prefix cs empty_state pre post) as (s & Hrun & Hwf & Hb & Hsc').
  - apply wf_empty.
  - by rewrite empty_state_dom.
  - rewrite empty_state_size. lia.
  - done.
  - exists s. split; [done|]. split.
    + intros r c Hc. by destruct (wf_count s Hwf r c Hc).
    + intros c post' ->. cbn [scoped length] in *.
      apply andb_true_iff in Hsc' as [Hc _].
      assert (room s) as Hroom by (unfold room; lia).
      destruct (exec_ok _ c s Hwf Hroom eq_refl Hc) as (s' & Hexec & _).
      exists s'. split; [done|]. by apply exec_counting.
Qed.

(** C1: take any well-scoped program that starts with [SP<T> p(new T(v))]
    in the empty store and goes on with constructions, copies, assignments
    and destructions in any order.  At every point the payload of [p] has
    been deleted exactly once if no live handle points to it and never
    otherwise, it exists exactly as long as some handle points to it, and
    the statement that deletes it is the destruction, or the assignment to
    another handle, of the only handle still pointing to it. *)
Theorem single_release (v : T) (p : N) (cs : list stmt) :
  scoped ∅ (New p v :: cs) = true →
  Z.of_nat (length (New p v :: cs)) < INT_MAX →
  ∀ pre post, cs = pre ++ post →
  let V := next empty_state in
  ∃ s, run (New p v :: pre) empty_state = Ok s ∧
    releases V s = (if Nat.eqb (holders V (sps s)) 0 then 1 else 0)%nat ∧
    (is_Some (objs s !! V) ↔ holders V (sps s) ≠ 0%nat) ∧
    (∀ c post', post = c :: post' →
       ∃ s', exec c s = Ok s' ∧
         (releases V s = 0%nat → releases V s' = 1%nat → drops_last c V s)).
Proof.
  intros Hsc Hlen pre post Hcs V.
  cbn [scoped] in Hsc. apply andb_true_iff in Hsc as [Hp Hsc].
  cbn [length] in Hlen.
  assert (room empty_state) as Hroom0.
  { unfold room. rewrite empty_state_size. lia. }
  rewrite <- empty_state_dom in Hp, Hsc.
  destruct (exec_ok _ (New p v) empty_state wf_empty Hroom0 eq_refl Hp)
    as (s0 & Hexec0 & Hwf0 & Hdom0 & Hsize0).
  rewrite empty_state_size in Hsize0. rewrite <- Hdom0 in Hsc.
  assert (tracked V s0) as Htr0.
  { cbn [allowed] in Hp. apply bool_decide_eq_true, not_live in Hp.
    rewrite exec_New_eq in Hexec0 by done. injection Hexec0 as <-.
    left. proj. rewrite lookup_insert_eq. eauto. }
  destruct (run_prefix cs s0 pre post) as (s & Hrun & Hwf & Hb & Hsc');
    [done|done|lia|done|].
  destruct (run_invariant (tracked V) (exec_tracked V) pre s0)
    as (s1 & Hrun1 & _ & _ & Htr); [done| |subst cs| |].
  - subst cs. by eapply scoped_app.
  - rewrite length_app in Hlen. lia.
  - done.
  - assert (s1 = s) as -> by congruence.
    exists s. split.
    { cbn [run]. rewrite Hexec0. done. }
    destruct (tracked_released V s Hwf) as [Hrel Hlive]; [done|done|].
    split; [done|]. split; [done|].
    intros c post' ->. cbn [scoped length] in *.
    apply andb_true_iff in Hsc' as [Hc _].
    assert (room s) as Hroom by (unfold room; lia).
    destruct (exec_ok _ c s Hwf Hroom eq_refl Hc) as (s' & Hexec & _).
    exists s'. split; [done|]. unfold releases. intros H0 H1.
    destruct (exec_release_cases c s s' Hwf Hroom Hc Hexec)
      as [[Hdel _]|(q & _ & Hdrop & Hdel & _)]; rewrite Hdel in H1.
    + congruence.
    + destruct (decide (q = V)) as [->|Hne]; [done|].
      rewrite count_occ_cons_neq in H1 by done. congruence.
Qed.

(** ** The counter and its callers *)

(** C9: on a counter [c] whose [count] is an [int], [AddRef] raises the
    count by one (below [INT_MAX]) and has no failing case, [Release]
    lowers it by one and returns the new count (above [INT_MIN]).  The
    block that the destructor and the assignment operator share decides on
    that returned value alone: zero, and payload and counter are deleted;
    anything else, and both stay, the counter with the lowered count. *)
Theorem counter_operations (s : state) (h : N) (sp : SP) (c : RC) :
  INT_MIN ≤ count c ≤ INT_MAX →
  sps s !! h = Some sp →
  rcs s !! reference sp = Some c →
  reference sp ≠ NULL →
  pData sp = NULL ∨ is_Some (objs s !! pData sp) →
  (count c < INT_MAX → count (AddRef c) = count c + 1) ∧
  (INT_MIN < count c →
     Release c = (mkRC (count c - 1), count c - 1)) ∧
  ∃ s', drop_binding h s = Ok s' ∧
    (if Z.eqb (Release c).2 0
     then rcs s' !! reference sp = None ∧
          (pData sp ≠ NULL →
             objs s' !! pData sp = None ∧
             deleted s' = pData sp :: deleted s)
     else rcs s' !! reference sp = Some (Release c).1 ∧
          objs s' = objs s ∧ deleted s' = deleted s) ∧
    SP_dtor h s = Ok (end_sp h s') ∧
    (∀ src, h ≠ src → SP_assign h src s = SP_copy h src (end_sp h s')).
Proof.
  intros Hrange Hh Hc Hr Hp. split; [|split].
  - intros Hlt. unfold AddRef. proj. apply wrap_int_id. lia.
  - intros Hgt. unfold Release. by rewrite wrap_int_id by lia.
  - assert (∃ s', drop_binding h s = Ok s' ∧
      (if Z.eqb (Release c).2 0
       then rcs s' !! reference sp = None ∧
            (pData sp ≠ NULL →
               objs s' !! pData sp = None ∧
               deleted s' = pData sp :: deleted s)
       else rcs s' !! reference sp = Some (Release c).1 ∧
            objs s' = objs s ∧ deleted s' = deleted s)) as (s' & Hdrop & Hs').
    { unfold Release. cbn [fst snd].
      destruct (Z.eqb_spec (wrap_int (count c - 1)) 0) as [H0|H0].
      - destruct (decide (pData sp = NULL)) as [Hnull|Hnn].
        + eexists. split; [by eapply drop_binding_last_empty|].
          unfold set_rcs. proj. by rewrite lookup_delete_eq.
        + destruct Hp as [?|[v Hv]]; [done|].
          eexists. split; [by eapply drop_binding_last_value|].
          proj. by rewrite !lookup_delete_eq.
      - eexists. split; [by eapply drop_binding_shared|].
        unfold set_rcs. proj. by rewrite lookup_insert_eq. }
    exists s'. split; [done|]. split; [done|]. split.
    + unfold SP_dtor. by rewrite Hdrop.
    + intros src Hne. rewrite SP_assign_unfold by done.
      unfold SP_dtor. by rewrite Hdrop.
Qed.

(** C6, as the code has it: [Release] on a counter at zero is not
    detected.  It stores and returns [-1], and the caller goes on. *)
Theorem release_at_zero (s : state) (r : N) (c : RC) :
  rcs s !! r = Some c →
  count c = 0 →
  Release c = (mkRC (-1), -1) ∧
  call_Release r s = Ok (-1, set_rcs (<[r := mkRC (-1)]> (rcs s)) s).
Proof.
  intros Hc H0. unfold call_Release. rewrite Hc. unfold Release.
  rewrite H0. done.
Qed.

(** ** Access through a handle *)

(** C5, as the code has it: neither operator checks [pData].  On a
    default-constructed handle [operator->] returns the null pointer
    without any error, and [operator*], like any access through the
    pointer returned, is an access through the null pointer, which is
    undefined behaviour. *)
Theorem empty_handle_access (s : state) (h : N) :
  wf s →
  sps s !! h = None →
  ∃ s', SP_default h s = Ok s' ∧
    op_arrow h s' = Ok NULL ∧
    op_star h s' = Undefined NullAccess ∧
    (p ← op_arrow h s'; load p s') = Undefined NullAccess.
Proof.
  intros Hwf Hh. eexists. split; [rewrite SP_default_eq; by apply SP_from_eq|].
  pose proof (wf_null_objs s Hwf) as Hnull.
  unfold op_arrow, op_star, load, get_sp, mbind, result_bind. proj.
  rewrite lookup_insert_eq. proj. by rewrite Hnull.
Qed.

(** ** Assignment *)

(** Two different handles of one binding: the decrement cannot reach zero,
    and the increment that follows restores the store. *)
Lemma assign_same_binding s p q sp sp' :
  wf s →
  p ≠ q →
  sps s !! p = Some sp →
  sps s !! q = Some sp' →
  reference sp = reference sp' →
  SP_assign p q s = Ok s ∧ 2 ≤ counter (reference sp) s.
Proof.
  intros Hwf Hne Hp Hq Href.
  destruct (wf_ref s Hwf p sp Hp) as [c Hc].
  destruct (wf_count s Hwf _ c Hc) as [Hcnt Hrange].
  assert (sp' = sp) as ->.
  { pose proof (wf_same s Hwf p q sp sp' Hp Hq Href).
    destruct sp, sp'. cbn in *. congruence. }
  assert (2 ≤ count c) as H2.
  { rewrite Hcnt. unfold owners.
    rewrite (cnt_delete reference _ _ p sp Hp), decide_True by done.
    assert (delete p (sps s) !! q = Some sp) as Hq'
      by by apply lookup_delete_Some.
    pose proof (cnt_pos reference _ _ q sp Hq' eq_refl). lia. }
  split; [|unfold counter; by rewrite Hc].
  rewrite SP_assign_unfold by done.
  rewrite (SP_dtor_eq s p sp c) by done. unfold mbind, result_bind.
  unfold dtor_result. destruct (Z.eqb_spec (count c) 1) as [|_]; [lia|].
  rewrite (SP_copy_eq p q sp (mkRC (count c - 1))); proj.
  - f_equal. unfold AddRef. proj.
    rewrite wrap_int_id by (unfold INT_MIN; lia).
    rewrite insert_insert_eq, insert_delete_eq.
    replace (count c - 1 + 1) with (count c) by lia.
    rewrite !insert_id; try done.
    + by destruct s.
    + by destruct c.
  - by apply lookup_delete_Some.
  - apply lookup_delete_eq.
  - apply lookup_insert_eq.
Qed.

(** C10: for two different live handles [p] and [q] of one binding,
    [p = q] leaves the store as it is: the binding, the counter, the payload
    and the trace of deletions.  The guard compares the handles' addresses,
    so the body runs, but the counter is at least 2 and the decrement
    cannot reach zero before the increment restores it. *)
Theorem assign_between_sharers (s : state) (p q : N) (sp sp' : SP) :
  wf s →
  p ≠ q →
  sps s !! p = Some sp →
  sps s !! q = Some sp' →
  pData sp = pData sp' →
  reference sp = reference sp' →
  2 ≤ counter (reference sp) s ∧
  (∃ s1, drop_binding p s = Ok s1 ∧
         counter (reference sp) s1 = counter (reference sp) s - 1 ∧
         counter (reference sp) s1 ≠ 0 ∧ deleted s1 = deleted s) ∧
  SP_assign p q s = Ok s.
Proof.
  intros Hwf Hne Hp Hq _ Href.
  destruct (assign_same_binding s p q sp sp' Hwf Hne Hp Hq Href) as [Heq H2].
  split; [done|]. split; [|done].
  destruct (wf_ref s Hwf p sp Hp) as [c Hc].
  unfold counter in H2. rewrite Hc in H2.
  destruct (wf_count s Hwf _ c Hc) as [_ Hrange].
  assert (wrap_int (count c - 1) = count c - 1) as Hwrap.
  { apply wrap_int_id. unfold INT_MIN. lia. }
  exists (set_rcs (<[reference sp := mkRC (count c - 1)]> (rcs s)) s). split.
  - rewrite <- Hwrap. eapply drop_binding_shared; [done|done|lia].
  - unfold counter, set_rcs. proj. rewrite lookup_insert_eq, Hc. proj.
    split; [lia|]. split; [lia|done].
Qed.

(** The two field assignments and the increment that end [operator=]. *)
Lemma assign_tail target source t src s :
  target ≠ source →
  sps s !! target = Some t →
  sps s !! source = Some src →
  (t ← get_sp target s;
   src ← get_sp source s;
   s ← put_sp target (mkSP (pData src) (reference t)) s;
   t ← get_sp target s;
   src ← get_sp source s;
   s ← put_sp target (mkSP (pData t) (reference src)) s;
   t ← get_sp target s;
   call_AddRef (reference t) s) =
  (s ← put_sp target (mkSP (pData src) (reference src)) s;
   call_AddRef (reference src) s).
Proof.
  intros Hne Ht Hsrc. unfold_ops. crunch.
  rewrite lookup_insert_ne by done. crunch.
  by rewrite insert_insert_eq.
Qed.

Lemma assign_steps target source t src s :
  target ≠ source →
  sps s !! target = Some t →
  sps s !! source = Some src →
  SP_assign target source s =
  (s ← drop_binding target s;
   s ← put_sp target (mkSP (pData src) (reference src)) s;
   call_AddRef (reference src) s).
Proof.
  intros Hne Ht Hsrc. unfold SP_assign.
  rewrite (proj2 (N.eqb_neq target source) Hne). cbn [negb].
  destruct (drop_binding target s) as [s1|w] eqn:Hdrop; [|done].
  pose proof (drop_binding_sps _ _ _ Hdrop) as Hs1.
  apply (assign_tail target source t src s1); congruence.
Qed.

(** The destructor's block, with the fields of the handle read once. *)
Lemma drop_binding_steps this t s :
  sps s !! this = Some t →
  drop_binding this s =
  ('(n, s) ← call_Release (reference t) s;
   if Z.eqb n 0 then
     s ← delete_T (pData t) s;
     delete_RC (reference t) s
   else Ok s).
Proof.
  intros Ht. unfold drop_binding, get_sp, mbind, result_bind. rewrite Ht.
  destruct (call_Release (reference t) s) as [[n s1]|w] eqn:HR; [|done].
  destruct (Z.eqb n 0); [|done].
  rewrite (call_Release_sps _ _ _ _ HR), Ht.
  destruct (delete_T (pData t) s1) as [s2|w] eqn:HT; [|done].
  by rewrite (delete_T_sps _ _ _ HT), (call_Release_sps _ _ _ _ HR), Ht.
Qed.

(** C4: on a well-formed store and live handles, [operator=] computes what
    the four steps of the specification compute, the check of step 1 being
    taken on the bindings; and the assignment of a handle to itself returns
    the store as it is, so that no binding, payload or counter changes and
    nothing is deleted. *)
Theorem assign_follows_steps (s : state) (target source : N) (t src : SP) :
  wf s →
  sps s !! target = Some t →
  sps s !! source = Some src →
  SP_assign target source s = Reassign_spec target source s ∧
  SP_assign target target s = Ok s.
Proof.
  intros Hwf Ht Hsrc. split.
  - unfold Reassign_spec, get_sp. rewrite Ht, Hsrc.
    unfold mbind at 1 2, result_bind at 1 2.
    destruct (same_binding t src) eqn:Hsame.
    + apply andb_true_iff in Hsame as [Hp%N.eqb_eq Hr%N.eqb_eq].
      destruct (decide (target = source)) as [->|Hne].
      * unfold SP_assign. by rewrite N.eqb_refl.
      * by destruct (assign_same_binding s target source t src).
    + assert (target ≠ source) as Hne.
      { intros ->. assert (t = src) as -> by congruence.
        unfold same_binding in Hsame. by rewrite !N.eqb_refl in Hsame. }
      rewrite (assign_steps target source t src) by done.
      rewrite (drop_binding_steps target t) by done.
      unfold mbind, result_bind.
      destruct (call_Release (reference t) s) as [[n s1]|w]; [|done].
      by destruct (Z.eqb n 0).
  - unfold SP_assign. by rewrite N.eqb_refl.
Qed.

Lemma live_not_released s h sp :
  wf s → sps s !! h = Some sp → pData sp ≠ NULL →
  releases (pData sp) s = 0%nat.
Proof.
  intros Hwf Hh Hnn.
  destruct (tracked_released (pData sp) s Hwf Hnn) as [-> _].
  { left. by eapply wf_data. }
  pose proof (cnt_pos pData (pData sp) (sps s) h sp Hh eq_refl) as Hpos.
  unfold holders. by destruct (tally pData (pData sp) (sps s)); [lia|].
Qed.

(** C3: for two different live handles, [target = source] ends in the
    store that the copy constructor leaves when it builds [target] from
    [source] right after [target]'s destructor has run: [target] has the
    payload pointer and the counter of [source], both dereference alike,
    and the counter counts one handle more unless [target] was on that
    binding already.  The former binding of [target] (its counter, and its
    payload if it has one) is deleted exactly when [target] was its only
    handle.  The payload of [source], if it has one, survives the
    assignment, and [operator*] and a read through either handle reach it
    and give its value. *)
Theorem assign_rebinds (s : state) (target source : N) (t src : SP) :
  wf s → room s →
  target ≠ source →
  sps s !! target = Some t →
  sps s !! source = Some src →
  ∃ s', SP_assign target source s = Ok s' ∧
    (∃ s1, SP_dtor target s = Ok s1 ∧ SP_copy target source s1 = Ok s') ∧
    sps s' !! target = Some src ∧
    sps s' !! source = Some src ∧
    op_star target s' = op_star source s' ∧
    op_arrow target s' = op_arrow source s' ∧
    counter (reference src) s' = Z.of_nat (owners (reference src) (sps s')) ∧
    (reference t ≠ reference src →
       counter (reference src) s' = counter (reference src) s + 1) ∧
    (rcs s' !! reference t = None ↔
       owners (reference t) (sps s) = 1%nat) ∧
    (pData t ≠ NULL →
       (objs s' !! pData t = None ↔ owners (reference t) (sps s) = 1%nat) ∧
       (releases (pData t) s' = 1%nat ↔
          owners (reference t) (sps s) = 1%nat)) ∧
    (∀ v, objs s !! pData src = Some v →
          objs s' !! pData src = Some v ∧
          op_star target s' = Ok (pData src) ∧
          op_star source s' = Ok (pData src) ∧
          read target s' = Ok v ∧ read source s' = Ok v).
Proof.
  intros Hwf Hroom Hne Ht Hsrc.
  destruct (wf_ref s Hwf target t Ht) as [c Hc].
  destruct (wf_count s Hwf _ c Hc) as [Hcnt Hrange].
  destruct (exec_Assign_eq s target source t src c)
    as (c' & Hc' & Hadd & Heq & Hwf'); try done.
  eexists. split; [exact Heq|].
  assert (sps s !! source = Some src) as Hsrc0 by done.
  split; [|split; [|split; [|split; [|split; [|split; [|split; [|split;
    [|split]]]]]]]].
  - exists (dtor_result target t c s). split; [by apply SP_dtor_eq|].
    rewrite (SP_copy_eq target source src c').
    + by rewrite dtor_result_sps, dtor_result_next, insert_delete_eq.
    + rewrite dtor_result_sps. by apply lookup_delete_Some.
    + rewrite dtor_result_sps. apply lookup_delete_eq.
    + done.
  - proj. apply lookup_insert_eq.
  - proj. by rewrite lookup_insert_ne.
  - unfold op_star, get_sp, mbind, result_bind. proj.
    by rewrite lookup_insert_eq, lookup_insert_ne, Hsrc by done.
  - unfold op_arrow, get_sp, mbind, result_bind. proj.
    by rewrite lookup_insert_eq, lookup_insert_ne, Hsrc by done.
  - unfold counter. proj. rewrite lookup_insert_eq.
    apply (wf_count _ Hwf' (reference src)). proj. apply lookup_insert_eq.
  - intros Hrr. unfold counter. proj. rewrite lookup_insert_eq, Hadd.
    rewrite dtor_result_rcs_other in Hc' by done. by rewrite Hc'.
  - proj. split.
    + intros Hnone. destruct (decide (reference src = reference t)) as [E|E].
      { rewrite E, lookup_insert_eq in Hnone. done. }
      rewrite lookup_insert_ne in Hnone by done.
      unfold dtor_result in Hnone.
      destruct (Z.eqb_spec (count c) 1) as [H1|H1]; proj in Hnone.
      * lia.
      * by rewrite lookup_insert_eq in Hnone.
    + intros H1. assert (count c = 1) as Hc1 by lia.
      assert (rcs (dtor_result target t c s) !! reference t = None) as Hgone.
      { unfold dtor_result. rewrite (proj2 (Z.eqb_eq _ _) Hc1). proj.
        apply lookup_delete_eq. }
      rewrite lookup_insert_ne; [done|]. intros E. congruence.
  - intros Hnn. proj.
    pose proof (live_not_released s target t Hwf Ht Hnn) as Hrel.
    destruct (wf_data s Hwf target t Ht Hnn) as [v Hv].
    unfold releases in *. proj.
    destruct (dtor_result_cases target t c s Hwf Ht Hc)
      as [(-> & -> & [?|Hc1])|(_ & Hc1 & _ & -> & ->)]; [done| |].
    + rewrite Hv, Hrel. split; (split; [done|lia]).
    + rewrite lookup_delete_eq, count_occ_cons_eq, Hrel by done.
      split; (split; [lia|done]).
  - intros v Hv.
    assert (objs (dtor_result target t c s) !! pData src = Some v) as Hv'.
    { destruct (dtor_result_cases target t c s Hwf Ht Hc)
        as [(_ & -> & _)|(_ & _ & [_ Hsole] & _ & ->)]; [done|].
      rewrite lookup_delete_ne; [done|]. intros E.
      apply Hne. symmetry. by apply (Hsole source src). }
    split; [exact Hv'|].
    assert (∀ h, <[target := src]> (sps s) !! h = Some src →
                 op_star h
                   (mkState
                      (<[reference src := AddRef c']>
                         (rcs (dtor_result target t c s)))
                      (objs (dtor_result target t c s))
                      (<[target := src]> (sps s)) (next s)
                      (deleted (dtor_result target t c s)))
                 = Ok (pData src)) as Hstar.
    { intros h Hh. unfold op_star, get_sp, mbind, result_bind. proj.
      by rewrite Hh, Hv'. }
    split; [apply Hstar, lookup_insert_eq|].
    split; [apply Hstar; by rewrite lookup_insert_ne|].
    split; unfold read, load, mbind, result_bind.
    + rewrite (Hstar target) by apply lookup_insert_eq. proj.
      by rewrite Hv'.
    + rewrite (Hstar source) by by rewrite lookup_insert_ne. proj.
      by rewrite Hv'.
Qed.

(** ** Scenarios *)

Lemma read_eq h sp v s :
  sps s !! h = Some sp → objs s !! pData sp = Some v → read h s = Ok v.
Proof.
  intros Hh Hv. unfold read, op_star, load, get_sp, mbind, result_bind.
  by rewrite Hh, Hv, Hv.
Qed.

Lemma AddRef_1 : AddRef (mkRC 1) = mkRC 2.
Proof. reflexivity. Qed.

(** C8: in any well-formed store, [SP<T> p(new T(v))] gives [p] a counter
    that did not exist before, at exactly 1; [SP<T> q = p] raises it to 2;
    the destruction of [q] lowers it to 1 and [*p] still reads [v]; the
    destruction of [p] deletes the payload, once, and the counter. *)
Theorem scenario_A (s : state) (p q : N) (v : T) :
  wf s →
  p ≠ q →
  sps s !! p = None →
  sps s !! q = None →
  let V := next s in
  let R := N.succ (next s) in
  ∃ s1 s2 s3 s4,
    exec (New p v) s = Ok s1 ∧
    rcs s !! R = None ∧ sps s1 !! p = Some (mkSP V R) ∧ counter R s1 = 1 ∧
    exec (Copy q p) s1 = Ok s2 ∧
    sps s2 !! q = Some (mkSP V R) ∧ counter R s2 = 2 ∧
    exec (Destroy q) s2 = Ok s3 ∧
    counter R s3 = 1 ∧ read p s3 = Ok v ∧ releases V s3 = 0%nat ∧
    exec (Destroy p) s3 = Ok s4 ∧
    objs s4 !! V = None ∧ releases V s4 = 1%nat ∧ rcs s4 !! R = None.
Proof.
  intros Hwf Hne Hp Hq V R.
  pose proof (wf_next s Hwf) as Hnext.
  assert (R ≠ NULL) as HR by (unfold R, NULL; lia).
  assert (V ≠ NULL) as HV by (unfold V, NULL; lia).
  assert (rcs s !! R = None) as HRfresh.
  { destruct (rcs s !! R) as [c|] eqn:Hc; [|done].
    apply (wf_rcs_addr s Hwf) in Hc. unfold R in Hc. lia. }
  assert (releases V s = 0%nat) as Hrel.
  { unfold releases. apply count_occ_not_In. rewrite <- list_elem_of_In.
    intros Hin%(wf_deleted_addr s Hwf). unfold V in Hin. lia. }
  set (s1 := mkState (<[R := mkRC 1]> (rcs s)) (<[V := v]> (objs s))
                     (<[p := mkSP V R]> (sps s)) (N.succ R) (deleted s)).
  set (s2 := mkState (<[R := mkRC 2]> (rcs s1)) (objs s1)
                     (<[q := mkSP V R]> (sps s1)) (next s1) (deleted s1)).
  set (s3 := end_sp q (set_rcs (<[R := mkRC 1]> (rcs s2)) s2)).
  set (s4 := end_sp p (mkState (delete R (rcs s3)) (delete V (objs s3))
                               (sps s3) (next s3) (V :: deleted s3))).
  assert (sps s2 !! q = Some (mkSP V R)) as Hq2 by apply lookup_insert_eq.
  assert (rcs s2 !! R = Some (mkRC 2)) as HR2 by apply lookup_insert_eq.
  assert (sps s3 !! p = Some (mkSP V R)) as Hp3.
  { unfold s3, s2, s1, end_sp, set_sps, set_rcs. proj.
    rewrite lookup_delete_ne, lookup_insert_ne by done.
    apply lookup_insert_eq. }
  assert (objs s3 !! V = Some v) as Hv3 by apply lookup_insert_eq.
  assert (rcs s3 !! R = Some (mkRC 1)) as HR3 by apply lookup_insert_eq.
  exists s1, s2, s3, s4.
  split; [by apply exec_New_eq|]. split; [done|].
  split; [apply lookup_insert_eq|].
  split; [unfold counter, s1; proj; by rewrite lookup_insert_eq|].
  split.
  { cbn [exec]. rewrite (SP_copy_eq q p (mkSP V R) (mkRC 1)).
    - by rewrite AddRef_1.
    - apply lookup_insert_eq.
    - unfold s1. proj. by rewrite lookup_insert_ne.
    - apply lookup_insert_eq. }
  split; [done|].
  split; [unfold counter; by rewrite HR2|].
  split.
  { cbn [exec]. unfold SP_dtor.
    by rewrite (drop_binding_shared q (mkSP V R) (mkRC 2) s2). }
  split; [unfold counter; by rewrite HR3|].
  split; [by eapply read_eq|]. split; [done|].
  split.
  { cbn [exec]. unfold SP_dtor.
    by rewrite (drop_binding_last_value p (mkSP V R) (mkRC 1) v s3). }
  split; [apply lookup_delete_eq|].
  split; [|apply lookup_delete_eq].
  unfold releases in *. unfold s4, s3, s2, s1, end_sp, set_sps, set_rcs. proj.
  rewrite count_occ_cons_eq by done. by rewrite Hrel.
Qed.

Lemma write_eq h sp v w s :
  sps s !! h = Some sp → objs s !! pData sp = Some v →
  write h w s = Ok (set_objs (<[pData sp := w]> (objs s)) s).
Proof.
  intros Hh Hv. unfold write, op_star, store, get_sp, mbind, result_bind.
  by rewrite Hh, Hv, Hv.
Qed.

(** After [SP<T> q = p], destroying one of the two handles leaves the
    other one, the payload and its value in place. *)
Lemma copy_then_dtor (s' : state) a b sp v :
  wf s' →
  a ≠ b →
  sps s' !! a = Some sp →
  sps s' !! b = Some sp →
  objs s' !! pData sp = Some v →
  ∃ s'', SP_dtor a s' = Ok s'' ∧ read b s'' = Ok v ∧
         releases (pData sp) s'' = 0%nat.
Proof.
  intros Hwf Hne Ha Hb Hv.
  destruct (wf_ref s' Hwf a sp Ha) as [c Hc].
  assert (pData sp ≠ NULL) as Hnn.
  { intros E. rewrite E, (wf_null_objs s' Hwf) in Hv. done. }
  exists (dtor_result a sp c s'). split; [by apply SP_dtor_eq|].
  destruct (dtor_result_cases a sp c s' Hwf Ha Hc)
    as [(Hdel & Hobjs & _)|(_ & _ & [_ Hsole] & _)].
  - split.
    + apply (read_eq b sp).
      * rewrite dtor_result_sps. by apply lookup_delete_Some.
      * by rewrite Hobjs.
    + unfold releases. rewrite Hdel. by apply (live_not_released s' a sp).
  - exfalso. apply Hne. symmetry. by apply (Hsole b sp).
Qed.

(** C7: after [SP<T> q = p] on a handle [p] with a payload, [*q] and [*p]
    are the same object and [q->] and [p->] the same pointer, so both read
    the same value; a value written through either handle is read through
    the other; and whichever of the two is destroyed first, the other still
    reads the value and nothing has been deleted. *)
Theorem copy_shares_value (s : state) (p q : N) (sp : SP) (v : T) :
  wf s → room s →
  sps s !! p = Some sp →
  sps s !! q = None →
  objs s !! pData sp = Some v →
  ∃ s', SP_copy q p s = Ok s' ∧
    op_star p s' = Ok (pData sp) ∧ op_star q s' = Ok (pData sp) ∧
    op_arrow q s' = op_arrow p s' ∧
    read p s' = Ok v ∧ read q s' = Ok v ∧
    (∀ w, ∃ s'', write p w s' = Ok s'' ∧
                 read q s'' = Ok w ∧ read p s'' = Ok w) ∧
    (∀ w, ∃ s'', write q w s' = Ok s'' ∧
                 read p s'' = Ok w ∧ read q s'' = Ok w) ∧
    (∃ s'', SP_dtor p s' = Ok s'' ∧ read q s'' = Ok v ∧
            releases (pData sp) s'' = 0%nat) ∧
    (∃ s'', SP_dtor q s' = Ok s'' ∧ read p s'' = Ok v ∧
            releases (pData sp) s'' = 0%nat).
Proof.
  intros Hwf Hroom Hp Hq Hv.
  destruct (wf_ref s Hwf p sp Hp) as [c Hc].
  assert (p ≠ q) as Hne by congruence.
  set (s' := mkState (<[reference sp := AddRef c]> (rcs s)) (objs s)
                     (<[q := sp]> (sps s)) (next s) (deleted s)).
  assert (wf s') as Hwf' by by eapply wf_copy.
  assert (sps s' !! p = Some sp) as Hp'.
  { unfold s'. proj. by rewrite lookup_insert_ne. }
  assert (sps s' !! q = Some sp) as Hq' by apply lookup_insert_eq.
  assert (objs s' !! pData sp = Some v) as Hv' by done.
  exists s'. split; [by eapply SP_copy_eq|].
  assert (∀ h, sps s' !! h = Some sp → op_star h s' = Ok (pData sp)) as Hstar.
  { intros h Hh. unfold op_star, get_sp, mbind, result_bind.
    by rewrite Hh, Hv'. }
  split; [by apply Hstar|]. split; [by apply Hstar|].
  split.
  { unfold op_arrow, get_sp, mbind, result_bind. by rewrite Hp', Hq'. }
  split; [by eapply read_eq|]. split; [by eapply read_eq|].
  split; [|split; [|split]].
  - intros w. eexists. split; [by eapply write_eq|].
    split; eapply read_eq; try done; apply lookup_insert_eq.
  - intros w. eexists. split; [by eapply write_eq|].
    split; eapply read_eq; try done; apply lookup_insert_eq.
  - by eapply copy_then_dtor.
  - by eapply copy_then_dtor.
Qed.

(** Every store that a well-scoped program reaches from the empty store is
    well formed. *)
Lemma reachable_wf cs s :
  scoped ∅ cs = true →
  Z.of_nat (length cs) < INT_MAX →
  run cs empty_state = Ok s →
  wf s ∧ room s.
Proof.
  intros Hsc Hlen Hrun.
  destruct (run_ok cs empty_state) as (s' & Hrun' & Hwf & Hroom).
  - apply wf_empty.
  - by rewrite empty_state_dom.
  - rewrite empty_state_size. lia.
  - assert (s' = s) as <- by congruence. done.
Qed.

(** ** Further properties of the counted handle *)

(** X1: a well-scoped program never leaves garbage.  In every store it
    reaches from the empty one, each counter that exists is the counter of
    some live handle and each payload that exists is held by some live
    handle; once no handle is left, no counter and no payload is. *)
Theorem no_garbage (cs : list stmt) (s : state) :
  scoped ∅ cs = true →
  Z.of_nat (length cs) < INT_MAX →
  run cs empty_state = Ok s →
  (∀ r c, rcs s !! r = Some c →
          ∃ h sp, sps s !! h = Some sp ∧ reference sp = r) ∧
  (∀ p v, objs s !! p = Some v →
          ∃ h sp, sps s !! h = Some sp ∧ pData sp = p) ∧
  (sps s = ∅ → rcs s = ∅ ∧ objs s = ∅).
Proof.
  intros Hsc Hlen Hrun.
  destruct (reachable_wf cs s Hsc Hlen Hrun) as [Hwf _].
  assert (∀ r c, rcs s !! r = Some c →
                 ∃ h sp, sps s !! h = Some sp ∧ reference sp = r) as Hrc.
  { intros r c Hc. destruct (wf_count s Hwf r c Hc) as [Hcnt Hrange].
    apply (cnt_exists reference). unfold owners in Hcnt. lia. }
  split; [done|]. split; [apply (wf_owned s Hwf)|].
  intros Hnone. split; apply map_empty; intros i.
  - destruct (rcs s !! i) as [c|] eqn:Hc; [|done].
    destruct (Hrc i c Hc) as (h & sp & Hh & _).
    by rewrite Hnone, lookup_empty in Hh.
  - destruct (objs s !! i) as [v|] eqn:Hv; [|done].
    destruct (wf_owned s Hwf i v Hv) as (h & sp & Hh & _).
    by rewrite Hnone, lookup_empty in Hh.
Qed.

(** X2: a well-scoped program never leaves a live handle dangling.  In
    every store it reaches, the counter of a live handle exists,
    [operator->] returns its payload pointer, and if that pointer is not
    null the payload exists, was never deleted, and [operator*] and a read
    through it succeed. *)
Theorem live_handles_are_valid (cs : list stmt) (s : state) (h : N) (sp : SP) :
  scoped ∅ cs = true →
  Z.of_nat (length cs) < INT_MAX →
  run cs empty_state = Ok s →
  sps s !! h = Some sp →
  is_Some (rcs s !! reference sp) ∧
  op_arrow h s = Ok (pData sp) ∧
  (pData sp ≠ NULL →
     op_star h s = Ok (pData sp) ∧ (∃ v, read h s = Ok v) ∧
     releases (pData sp) s = 0%nat).
Proof.
  intros Hsc Hlen Hrun Hh.
  destruct (reachable_wf cs s Hsc Hlen Hrun) as [Hwf _].
  split; [by eapply wf_ref|]. split.
  { unfold op_arrow, get_sp, mbind, result_bind. by rewrite Hh. }
  intros Hnn. destruct (wf_data s Hwf h sp Hh Hnn) as [v Hv].
  split; [|split].
  - unfold op_star, get_sp, mbind, result_bind. by rewrite Hh, Hv.
  - exists v. by eapply read_eq.
  - by eapply live_not_released.
Qed.

(** X3: in every store a well-scoped program reaches, a counter that
    exists is at least 1 and at most the number of live handles, so the
    value [Release] returns on it is its count less one and never
    negative. *)
Theorem counters_stay_positive (cs : list stmt) (s : state) (r : N) (c : RC) :
  scoped ∅ cs = true →
  Z.of_nat (length cs) < INT_MAX →
  run cs empty_state = Ok s →
  rcs s !! r = Some c →
  1 ≤ count c ≤ Z.of_nat (size (sps s)) ∧
  (Release c).2 = count c - 1 ∧ 0 ≤ (Release c).2.
Proof.
  intros Hsc Hlen Hrun Hc.
  destruct (reachable_wf cs s Hsc Hlen Hrun) as [Hwf _].
  destruct (wf_count s Hwf r c Hc) as [_ Hrange].
  pose proof (wf_count_le_size s r c Hwf Hc) as Hle.
  unfold Release. cbn [snd].
  rewrite wrap_int_id by (unfold INT_MIN; lia). lia.
Qed.

(** X4: a statement leaves every handle other than its subject alone.  The
    other handle keeps its payload pointer and its counter, the counter
    still exists, and the payload, if there is one, still exists with the
    value it had. *)
Theorem other_handles_untouched (c : stmt) (s s' : state) (h : N) (sp : SP) :
  wf s → room s →
  allowed (dom (sps s)) c = true →
  exec c s = Ok s' →
  h ≠ subject c →
  sps s !! h = Some sp →
  sps s' !! h = Some sp ∧
  is_Some (rcs s' !! reference sp) ∧
  (∀ v, objs s !! pData sp = Some v → objs s' !! pData sp = Some v).
Proof.
  intros Hwf Hroom Hc Hexec Hne Hh.
  destruct (exec_ok _ c s Hwf Hroom eq_refl Hc) as (s1 & Hexec1 & Hwf' & _).
  assert (s1 = s') as -> by congruence.
  assert (sps s' !! h = Some sp) as Hh'.
  { destruct c as [h0|h0 v|h0 src|h0 src|h0];
      cbn [allowed subject] in *.
    - apply bool_decide_eq_true, not_live in Hc.
      cbn [exec] in Hexec.
      rewrite SP_default_eq, SP_from_eq in Hexec by done.
      injection Hexec as <-. proj. by rewrite lookup_insert_ne.
    - apply bool_decide_eq_true, not_live in Hc.
      rewrite exec_New_eq in Hexec by done.
      injection Hexec as <-. proj. by rewrite lookup_insert_ne.
    - apply andb_true_iff in Hc as [Hh0%bool_decide_eq_true%not_live
                                      Hsrc%bool_decide_eq_true%is_live].
      destruct Hsrc as [sp0 Hsrc].
      destruct (wf_ref s Hwf src sp0 Hsrc) as [c0 Hc0].
      cbn [exec] in Hexec.
      rewrite (SP_copy_eq h0 src sp0 c0) in Hexec by done.
      injection Hexec as <-. proj. by rewrite lookup_insert_ne.
    - apply andb_true_iff in Hc as [Hh0%bool_decide_eq_true%is_live
                                      Hsrc%bool_decide_eq_true%is_live].
      destruct Hh0 as [sp0 Hh0]. destruct Hsrc as [sp1 Hsrc].
      cbn [exec] in Hexec.
      destruct (decide (h0 = src)) as [->|Hne0].
      + unfold SP_assign in Hexec. rewrite N.eqb_refl in Hexec.
        by injection Hexec as <-.
      + destruct (wf_ref s Hwf h0 sp0 Hh0) as [c0 Hc0].
        destruct (exec_Assign_eq s h0 src sp0 sp1 c0)
          as (c' & _ & _ & Heq & _); try done.
        rewrite Heq in Hexec. injection Hexec as <-. proj.
        by rewrite lookup_insert_ne.
    - apply bool_decide_eq_true, is_live in Hc as [sp0 Hh0].
      destruct (wf_ref s Hwf h0 sp0 Hh0) as [c0 Hc0].
      cbn [exec] in Hexec. rewrite (SP_dtor_eq s h0 sp0 c0) in Hexec by done.
      injection Hexec as <-. rewrite dtor_result_sps.
      by rewrite lookup_delete_ne. }
  split; [done|]. split; [by eapply wf_ref|].
  intros v Hv.
  destruct (exec_release_cases c s s' Hwf Hroom Hc Hexec)
    as [[_ Hobjs]|(q & Hq & (h0 & [_ Hsole] & Hsub) & _ & Hobjs)].
  - destruct (Hobjs (pData sp)) as [v' Hv']; [eauto|].
    assert (pData sp ≠ NULL) as Hnn.
    { intros E. rewrite E, (wf_null_objs s Hwf) in Hv. done. }
    destruct c as [h0|h0 w|h0 src|h0 src|h0];
      cbn [allowed subject] in *.
    + apply bool_decide_eq_true, not_live in Hc. cbn [exec] in Hexec.
      rewrite SP_default_eq, SP_from_eq in Hexec by done.
      by injection Hexec as <-.
    + apply bool_decide_eq_true, not_live in Hc.
      rewrite exec_New_eq in Hexec by done.
      injection Hexec as <-. proj. rewrite lookup_insert_ne; [done|].
      intros E. apply (wf_objs_addr s Hwf) in Hv. lia.
    + apply andb_true_iff in Hc as [Hh0%bool_decide_eq_true%not_live
                                      Hsrc%bool_decide_eq_true%is_live].
      destruct Hsrc as [sp0 Hsrc].
      destruct (wf_ref s Hwf src sp0 Hsrc) as [c0 Hc0].
      cbn [exec] in Hexec.
      rewrite (SP_copy_eq h0 src sp0 c0) in Hexec by done.
      by injection Hexec as <-.
    + apply andb_true_iff in Hc as [Hh0%bool_decide_eq_true%is_live
                                      Hsrc%bool_decide_eq_true%is_live].
      destruct Hh0 as [sp0 Hh0]. destruct Hsrc as [sp1 Hsrc].
      cbn [exec] in Hexec.
      destruct (decide (h0 = src)) as [->|Hne0].
      * unfold SP_assign in Hexec. rewrite N.eqb_refl in Hexec.
        by injection Hexec as <-.
      * destruct (wf_ref s Hwf h0 sp0 Hh0) as [c0 Hc0].
        destruct (exec_Assign_eq s h0 src sp0 sp1 c0)
          as (c' & _ & _ & Heq & _); try done.
        rewrite Heq in Hexec. injection Hexec as <-. proj. proj in Hv'.
        destruct (dtor_result_cases h0 sp0 c0 s Hwf Hh0 Hc0)
          as [(_ & -> & _)|(_ & _ & _ & _ & Hd)]; [done|].
        rewrite Hd in Hv' |- *.
        apply lookup_delete_Some in Hv' as [Hne' _].
        by rewrite lookup_delete_ne.
    + apply bool_decide_eq_true, is_live in Hc as [sp0 Hh0].
      destruct (wf_ref s Hwf h0 sp0 Hh0) as [c0 Hc0].
      cbn [exec] in Hexec. rewrite (SP_dtor_eq s h0 sp0 c0) in Hexec by done.
      injection Hexec as <-.
      destruct (dtor_result_cases h0 sp0 c0 s Hwf Hh0 Hc0)
        as [(_ & -> & _)|(_ & _ & _ & _ & Hd)]; [done|].
      rewrite Hd in Hv' |- *.
      apply lookup_delete_Some in Hv' as [Hne' _].
      by rewrite lookup_delete_ne.
  - rewrite Hobjs. rewrite lookup_delete_ne; [done|].
    intros E. apply Hne. rewrite (Hsole h sp Hh) by done.
    destruct Hsub as [->|(src & _ & ->)]; done.
Qed.

Lemma live_payload_not_null s p v : wf s → objs s !! p = Some v → p ≠ NULL.
Proof. intros Hwf Hv E. rewrite E, (wf_null_objs s Hwf) in Hv. done. Qed.

Lemma fresh_rcs s : wf s → rcs s !! next s = None.
Proof.
  intros Hwf. destruct (rcs s !! next s) as [c|] eqn:Hc; [|done].
  apply (wf_rcs_addr s Hwf) in Hc. lia.
Qed.

Lemma fresh_objs s : wf s → objs s !! next s = None.
Proof.
  intros Hwf. destruct (objs s !! next s) as [c|] eqn:Hc; [|done].
  apply (wf_objs_addr s Hwf) in Hc. lia.
Qed.

(** The last handle of a binding whose payload is gone already. *)
Lemma drop_binding_double_delete this sp c s :
  sps s !! this = Some sp →
  rcs s !! reference sp = Some c →
  wrap_int (count c - 1) = 0 →
  pData sp ≠ NULL →
  objs s !! pData sp = None →
  drop_binding this s = Undefined DoubleDelete.
Proof.
  intros Hthis Hc Hn%Z.eqb_eq Hp%N.eqb_neq Hv. unfold_ops. by crunch.
Qed.

(** X5: the constructor from a raw pointer takes any pointer, also one
    that a handle already owns.  If [q] is constructed from the payload
    pointer of [p], the only handle of its binding, the destruction of [q]
    deletes the payload under [p]: [*p] is then an access to a deleted
    object, and the destruction of [p] deletes it a second time. *)
Theorem raw_pointer_aliasing (s : state) (p q : N) (sp : SP) (c : RC) (v : T) :
  wf s →
  sps s !! p = Some sp →
  sps s !! q = None →
  objs s !! pData sp = Some v →
  rcs s !! reference sp = Some c →
  count c = 1 →
  ∃ s1 s2,
    SP_from q (pData sp) s = Ok s1 ∧
    SP_dtor q s1 = Ok s2 ∧
    sps s2 !! p = Some sp ∧
    objs s2 !! pData sp = None ∧
    op_star p s2 = Undefined Dangling ∧
    read p s2 = Undefined Dangling ∧
    SP_dtor p s2 = Undefined DoubleDelete.
Proof.
  intros Hwf Hp Hq Hv Hc H1.
  pose proof (wf_next s Hwf) as Hnext.
  pose proof (live_payload_not_null s _ v Hwf Hv) as Hnn.
  assert (p ≠ q) as Hpq by congruence.
  assert (reference sp ≠ next s) as Hr.
  { apply (wf_rcs_addr s Hwf) in Hc. lia. }
  set (s1 := mkState (<[next s := mkRC 1]> (rcs s)) (objs s)
                     (<[q := mkSP (pData sp) (next s)]> (sps s))
                     (N.succ (next s)) (deleted s)).
  set (s2 := end_sp q (mkState (delete (next s) (rcs s1))
                               (delete (pData sp) (objs s1)) (sps s1)
                               (next s1) (pData sp :: deleted s1))).
  assert (sps s2 !! p = Some sp) as Hp2.
  { unfold s2, s1, end_sp, set_sps. proj.
    by rewrite lookup_delete_ne, lookup_insert_ne. }
  assert (objs s2 !! pData sp = None) as Hv2 by apply lookup_delete_eq.
  assert (rcs s2 !! reference sp = Some c) as Hc2.
  { unfold s2, s1, end_sp, set_sps. proj.
    by rewrite lookup_delete_ne, lookup_insert_ne. }
  assert (bad_pointer (pData sp) = Dangling) as Hbad.
  { unfold bad_pointer. by rewrite (proj2 (N.eqb_neq _ _) Hnn). }
  exists s1, s2. split; [by apply SP_from_eq|]. split.
  { unfold SP_dtor.
    rewrite (drop_binding_last_value q (mkSP (pData sp) (next s))
               (mkRC 1) v s1); try done.
    - apply lookup_insert_eq.
    - apply lookup_insert_eq.
    - unfold NULL. proj. lia. }
  split; [done|]. split; [done|]. split; [|split].
  - unfold op_star, get_sp, mbind, result_bind. by rewrite Hp2, Hv2, Hbad.
  - unfold read, op_star, get_sp, mbind, result_bind.
    by rewrite Hp2, Hv2, Hbad.
  - unfold SP_dtor.
    rewrite (drop_binding_double_delete p sp c s2); try done.
    by rewrite H1.
Qed.

(** X6: a default-constructed handle and its destruction.  The handle has
    a counter of its own at 1 and no payload; its destruction deletes that
    counter and no payload, and leaves counters, payloads, handles and the
    trace of deletions as they were before the construction. *)
Theorem default_round_trip (s : state) (h : N) :
  wf s →
  sps s !! h = None →
  ∃ s1 s2,
    SP_default h s = Ok s1 ∧
    sps s1 !! h = Some (mkSP NULL (next s)) ∧ counter (next s) s1 = 1 ∧
    SP_dtor h s1 = Ok s2 ∧
    rcs s2 = rcs s ∧ objs s2 = objs s ∧ sps s2 = sps s ∧
    deleted s2 = deleted s.
Proof.
  intros Hwf Hh.
  pose proof (wf_next s Hwf) as Hnext.
  set (s1 := mkState (<[next s := mkRC 1]> (rcs s)) (objs s)
                     (<[h := mkSP NULL (next s)]> (sps s))
                     (N.succ (next s)) (deleted s)).
  exists s1, (end_sp h (set_rcs (delete (next s) (rcs s1)) s1)).
  split; [rewrite SP_default_eq; by apply SP_from_eq|].
  split; [apply lookup_insert_eq|].
  split; [unfold counter, s1; proj; by rewrite lookup_insert_eq|].
  split.
  { unfold SP_dtor.
    rewrite (drop_binding_last_empty h (mkSP NULL (next s)) (mkRC 1) s1);
      try done.
    - apply lookup_insert_eq.
    - apply lookup_insert_eq.
    - unfold NULL. proj. lia. }
  unfold end_sp, set_sps, set_rcs, s1. proj.
  split; [|split; [done|split; [|done]]].
  - rewrite delete_insert_eq. apply delete_id. by apply fresh_rcs.
  - rewrite delete_insert_eq. by apply delete_id.
Qed.

(** X7: a handle constructed from a fresh payload and its destruction.
    The payload is read through the handle, and the destruction deletes it
    (once) together with the counter: counters, payloads and handles are as
    before the construction, and the trace has the one payload more. *)
Theorem new_round_trip (s : state) (h : N) (v : T) :
  wf s →
  sps s !! h = None →
  ∃ s1 s2,
    exec (New h v) s = Ok s1 ∧
    read h s1 = Ok v ∧
    SP_dtor h s1 = Ok s2 ∧
    rcs s2 = rcs s ∧ objs s2 = objs s ∧ sps s2 = sps s ∧
    deleted s2 = next s :: deleted s.
Proof.
  intros Hwf Hh.
  pose proof (wf_next s Hwf) as Hnext.
  set (V := next s). set (R := N.succ (next s)).
  set (s1 := mkState (<[R := mkRC 1]> (rcs s)) (<[V := v]> (objs s))
                     (<[h := mkSP V R]> (sps s)) (N.succ R) (deleted s)).
  exists s1, (end_sp h (mkState (delete R (rcs s1)) (delete V (objs s1))
                                (sps s1) (next s1) (V :: deleted s1))).
  assert (sps s1 !! h = Some (mkSP V R)) as Hh1 by apply lookup_insert_eq.
  assert (objs s1 !! V = Some v) as Hv1 by apply lookup_insert_eq.
  split; [by apply exec_New_eq|].
  split; [by eapply read_eq|].
  split.
  { unfold SP_dtor.
    rewrite (drop_binding_last_value h (mkSP V R) (mkRC 1) v s1); try done.
    - apply lookup_insert_eq.
    - unfold NULL, R. proj. lia.
    - unfold NULL, V. proj. lia. }
  unfold end_sp, set_sps, s1. proj.
  split; [|split; [|split; [|done]]].
  - rewrite delete_insert_eq. apply delete_id.
    destruct (rcs s !! R) as [c|] eqn:Hc; [|done].
    apply (wf_rcs_addr s Hwf) in Hc. unfold R in Hc. lia.
  - rewrite delete_insert_eq. apply delete_id. by apply fresh_objs.
  - rewrite delete_insert_eq. by apply delete_id.
Qed.

(** X8: a copy and its destruction.  Destroying the copy of a live handle
    gives back exactly the store in which the copy was made. *)
Theorem copy_round_trip (s : state) (p q : N) (sp : SP) :
  wf s → room s →
  sps s !! p = Some sp →
  sps s !! q = None →
  ∃ s1, SP_copy q p s = Ok s1 ∧ SP_dtor q s1 = Ok s.
Proof.
  intros Hwf Hroom Hp Hq.
  destruct (wf_ref s Hwf p sp Hp) as [c Hc].
  destruct (wf_count s Hwf _ c Hc) as [_ Hrange].
  pose proof (AddRef_count s _ c Hwf Hroom Hc) as Hadd.
  set (s1 := mkState (<[reference sp := AddRef c]> (rcs s)) (objs s)
                     (<[q := sp]> (sps s)) (next s) (deleted s)).
  exists s1. split; [by eapply SP_copy_eq|].
  unfold SP_dtor.
  rewrite (drop_binding_shared q sp (AddRef c) s1).
  - unfold end_sp, set_sps, set_rcs, s1, mbind, result_bind. proj.
    rewrite Hadd. replace (count c + 1 - 1) with (count c) by lia.
    rewrite wrap_int_id by (unfold INT_MIN; lia).
    rewrite insert_insert_eq, delete_insert_eq.
    rewrite (delete_id (sps s)) by done.
    rewrite insert_id; [by destruct s|]. by destruct c.
  - apply lookup_insert_eq.
  - apply lookup_insert_eq.
  - rewrite Hadd. replace (count c + 1 - 1) with (count c) by lia.
    rewrite wrap_int_id by (unfold INT_MIN; lia). lia.
Qed.

(** X9: assignment is idempotent.  After [target = source] between two
    different live handles, the same assignment again returns the store as
    it is. *)
Theorem assign_idempotent (s : state) (target source : N) (t src : SP) :
  wf s → room s →
  target ≠ source →
  sps s !! target = Some t →
  sps s !! source = Some src →
  ∃ s1, SP_assign target source s = Ok s1 ∧
        SP_assign target source s1 = Ok s1.
Proof.
  intros Hwf Hroom Hne Ht Hsrc.
  destruct (wf_ref s Hwf target t Ht) as [c Hc].
  destruct (exec_Assign_eq s target source t src c)
    as (c' & _ & _ & Heq & Hwf'); try done.
  eexists. split; [exact Heq|].
  eapply (assign_same_binding _ target source src src); try done.
  - proj. apply lookup_insert_eq.
  - proj. by rewrite lookup_insert_ne.
Qed.

(** ** The classes without a counter *)

Lemma bad_pointer_dangling p : p ≠ NULL → bad_pointer p = Dangling.
Proof. intros Hp. unfold bad_pointer. by rewrite (proj2 (N.eqb_neq _ _) Hp). Qed.

(** X10: the second [main] does through a [PlainSP] exactly what the first
    one does by hand: the object is read, then deleted once when the handle
    goes out of scope, and counters, payloads and handles are as before. *)
Theorem main_plain_deletes (s : state) (v : T) :
  wf s →
  ∃ s', main_plain v s = Ok s' ∧ main_raw v s = Ok s' ∧
    rcs s' = rcs s ∧ objs s' = objs s ∧ sps s' = sps s ∧
    deleted s' = next s :: deleted s.
Proof.
  intros Hwf. pose proof (wf_next s Hwf) as Hnext.
  assert (N.eqb (next s) NULL = false) as Hnn.
  { apply N.eqb_neq. unfold NULL. lia. }
  exists (mkState (rcs s) (objs s) (sps s) (N.succ (next s))
                  (next s :: deleted s)).
  assert (main_raw v s =
          Ok (mkState (rcs s) (objs s) (sps s) (N.succ (next s))
                      (next s :: deleted s))) as Hraw.
  { unfold main_raw, new_T, Display, load, delete_T, mbind, result_bind.
    proj. rewrite lookup_insert_eq. proj. rewrite Hnn, lookup_insert_eq.
    rewrite delete_insert_eq, delete_id; [done|by apply fresh_objs]. }
  split; [exact Hraw|]. done.
Qed.

(** X11: a copy of a [PlainSP] holds the same pointer and nothing records
    that.  When the copy is destroyed the payload is deleted under the
    original: [operator*] and [Display] through the original are accesses
    to a deleted object, and its destructor deletes a second time. *)
Theorem plain_copy_dangles (s : state) (p : PlainSP) (v : T) :
  plain_pData p ≠ NULL →
  objs s !! plain_pData p = Some v →
  PlainSP_star (PlainSP_copy p) s = PlainSP_star p s ∧
  ∃ s1, PlainSP_dtor (PlainSP_copy p) s = Ok s1 ∧
    PlainSP_star p s1 = Undefined Dangling ∧
    Display (PlainSP_arrow p) s1 = Undefined Dangling ∧
    PlainSP_dtor p s1 = Undefined DoubleDelete.
Proof.
  intros Hnn Hv. split; [done|].
  pose proof (bad_pointer_dangling _ Hnn) as Hbad.
  apply N.eqb_neq in Hnn.
  exists (mkState (rcs s) (delete (plain_pData p) (objs s)) (sps s) (next s)
                  (plain_pData p :: deleted s)).
  split.
  { unfold PlainSP_dtor, PlainSP_copy, delete_T. proj.
    cbn [plain_pData]. by rewrite Hnn, Hv. }
  unfold PlainSP_star, Display, PlainSP_arrow, PlainSP_dtor, load, delete_T,
    mbind, result_bind. proj.
  by rewrite !lookup_delete_eq, Hbad, Hnn.
Qed.

(** X12: the third [main], with the copy [q] of the [PlainSP] [p] in the
    inner scope, has undefined behaviour in every well-formed store: the
    call [p->Display()] after the scope is an access to the object that the
    destructor of [q] deleted. *)
Theorem main_plain_copy_undefined (s : state) (v : T) :
  wf s →
  main_plain_copy v s = Undefined Dangling.
Proof.
  intros Hwf. pose proof (wf_next s Hwf) as Hnext.
  assert (next s ≠ NULL) as Hne by (unfold NULL; lia).
  pose proof (bad_pointer_dangling _ Hne) as Hbad.
  apply N.eqb_neq in Hne.
  unfold main_plain_copy, new_T, Display, PlainSP_arrow, PlainSP_copy,
    PlainSP_ctor, PlainSP_dtor, load, delete_T, mbind, result_bind.
  cbn [plain_pData]. proj.
  repeat first [progress proj | rewrite lookup_insert_eq | rewrite Hne].
  by rewrite lookup_delete_eq, Hbad.
Qed.

(** ** The client of the counted handle *)

Ltac lk :=
  proj;
  repeat first
    [ rewrite lookup_insert_eq
    | rewrite lookup_delete_eq
    | rewrite lookup_insert_ne by done
    | rewrite lookup_delete_ne by done ];
  try done.

Lemma op_arrow_eq h sp s : sps s !! h = Some sp → op_arrow h s = Ok (pData sp).
Proof.
  intros Hh. unfold op_arrow, get_sp, mbind, result_bind. by rewrite Hh.
Qed.

Lemma Display_eq a v s : objs s !! a = Some v → Display a s = Ok s.
Proof. intros Hv. unfold Display, load, mbind, result_bind. by rewrite Hv. Qed.

Lemma AddRef_2 : AddRef (mkRC 2) = mkRC 3.
Proof. reflexivity. Qed.

Lemma main_counted_unfold v p q r s :
  main_counted v p q r s =
  (s ← exec (New p v) s;
   a ← op_arrow p s; s ← Display a s;
   s ← SP_copy q p s;
   a ← op_arrow q s; s ← Display a s;
   s ← SP_default r s;
   s ← SP_assign r p s;
   a ← op_arrow r s; s ← Display a s;
   s ← SP_dtor r s;
   s ← SP_dtor q s;
   a ← op_arrow p s; s ← Display a s;
   SP_dtor p s).
Proof. reflexivity. Qed.

(** X13: the last [main] has no undefined behaviour in any well-formed
    store, whatever the three handles are: all four calls of [Display] find
    the object, which is deleted by the destructor of [p] only, once; at
    the end counters, payloads and handles are as at the start. *)
Theorem main_counted_runs (s : state) (v : T) (p q r : N) :
  wf s →
  p ≠ q → p ≠ r → q ≠ r →
  sps s !! p = None → sps s !! q = None → sps s !! r = None →
  ∃ s', main_counted v p q r s = Ok s' ∧
    rcs s' = rcs s ∧ objs s' = objs s ∧ sps s' = sps s ∧
    deleted s' = next s :: deleted s.
Proof.
  intros Hwf Hpq Hpr Hqr Hp Hq Hr.
  pose proof (wf_next s Hwf) as Hnext.
  pose proof (fresh_objs s Hwf) as HVfresh.
  set (V := next s) in *. set (R := N.succ V). set (R2 := N.succ R).
  assert (R ≠ R2) as HRR by (unfold R2; lia).
  assert (R ≠ NULL ∧ R2 ≠ NULL ∧ V ≠ NULL) as (HRn & HR2n & HVn)
    by (unfold NULL, R2, R; lia).
  assert (rcs s !! R = None ∧ rcs s !! R2 = None) as [HRfresh HR2fresh].
  { split.
    - destruct (rcs s !! R) as [c|] eqn:Hc; [|done].
      apply (wf_rcs_addr s Hwf) in Hc. unfold R, V in Hc. lia.
    - destruct (rcs s !! R2) as [c|] eqn:Hc; [|done].
      apply (wf_rcs_addr s Hwf) in Hc. unfold R2, R, V in Hc. lia. }
  set (o1 := <[V := v]> (objs s)).
  set (c1 := <[R := mkRC 1]> (rcs s)). set (h1 := <[p := mkSP V R]> (sps s)).
  set (c2 := <[R := mkRC 2]> c1). set (h2 := <[q := mkSP V R]> h1).
  set (c3 := <[R2 := mkRC 1]> c2). set (h3 := <[r := mkSP NULL R2]> h2).
  set (c3' := delete R2 c3). set (h3' := delete r h3).
  set (c4 := <[R := mkRC 3]> c3'). set (h4 := <[r := mkSP V R]> h3').
  set (c5 := <[R := mkRC 2]> c4). set (h5 := delete r h4).
  set (c6 := <[R := mkRC 1]> c5). set (h6 := delete q h5).
  set (s1 := mkState c1 o1 h1 R2 (deleted s)).
  set (s2 := mkState c2 o1 h2 R2 (deleted s)).
  set (s3 := mkState c3 o1 h3 (N.succ R2) (deleted s)).
  set (s3' := mkState c3' o1 h3' (N.succ R2) (deleted s)).
  set (s4 := mkState c4 o1 h4 (N.succ R2) (deleted s)).
  set (s5 := mkState c5 o1 h5 (N.succ R2) (deleted s)).
  set (s6 := mkState c6 o1 h6 (N.succ R2) (deleted s)).
  set (s7 := mkState (delete R c6) (delete V o1) (delete p h6) (N.succ R2)
                     (V :: deleted s)).
  assert (o1 !! V = Some v) as HV by apply lookup_insert_eq.
  assert (exec (New p v) s = Ok s1) as E1 by by apply exec_New_eq.
  assert (h1 !! p = Some (mkSP V R)) as Hp1 by apply lookup_insert_eq.
  assert (SP_copy q p s1 = Ok s2) as E2.
  { rewrite (SP_copy_eq q p (mkSP V R) (mkRC 1)); [by rewrite AddRef_1|done| |].
    - unfold s1, h1. by lk.
    - apply lookup_insert_eq. }
  assert (h2 !! q = Some (mkSP V R)) as Hq2 by apply lookup_insert_eq.
  assert (SP_default r s2 = Ok s3) as E3.
  { rewrite SP_default_eq, SP_from_eq; [done|]. unfold s2, h2, h1. by lk. }
  assert (h3 !! r = Some (mkSP NULL R2)) as Hr3 by apply lookup_insert_eq.
  assert (SP_dtor r s3 = Ok s3') as E3'.
  { unfold SP_dtor.
    by rewrite (drop_binding_last_empty r (mkSP NULL R2) (mkRC 1) s3);
      [|done|apply lookup_insert_eq|..]. }
  assert (h3' !! p = Some (mkSP V R)) as Hp3.
  { unfold h3', h3, h2, h1. by lk. }
  assert (c3' !! R = Some (mkRC 2)) as HR3.
  { unfold c3', c3, c2. by lk. }
  assert (SP_assign r p s3 = Ok s4) as E4.
  { rewrite SP_assign_unfold, E3' by done. unfold mbind, result_bind.
    rewrite (SP_copy_eq r p (mkSP V R) (mkRC 2));
      [by rewrite AddRef_2|done| |done].
    apply lookup_delete_eq. }
  assert (h4 !! r = Some (mkSP V R)) as Hr4 by apply lookup_insert_eq.
  assert (SP_dtor r s4 = Ok s5) as E5.
  { unfold SP_dtor.
    by rewrite (drop_binding_shared r (mkSP V R) (mkRC 3) s4);
      [|done|apply lookup_insert_eq|]. }
  assert (h5 !! q = Some (mkSP V R)) as Hq5.
  { unfold h5, h4, h3', h3, h2. by lk. }
  assert (SP_dtor q s5 = Ok s6) as E6.
  { unfold SP_dtor.
    by rewrite (drop_binding_shared q (mkSP V R) (mkRC 2) s5);
      [|done|apply lookup_insert_eq|]. }
  assert (h6 !! p = Some (mkSP V R)) as Hp6.
  { unfold h6, h5, h4, h3', h3, h2, h1. by lk. }
  assert (SP_dtor p s6 = Ok s7) as E7.
  { unfold SP_dtor.
    by rewrite (drop_binding_last_value p (mkSP V R) (mkRC 1) v s6);
      [|done|apply lookup_insert_eq|done|done|done|done]. }
  exists s7. split.
  { rewrite main_counted_unfold. unfold mbind, result_bind.
    rewrite E1. cbv beta iota.
    rewrite (op_arrow_eq p (mkSP V R) s1 Hp1). cbv beta iota. proj.
    rewrite (Display_eq V v s1) by done.
    rewrite E2.
    rewrite (op_arrow_eq q (mkSP V R) s2 Hq2). cbv beta iota. proj.
    rewrite (Display_eq V v s2) by done.
    rewrite E3, E4.
    rewrite (op_arrow_eq r (mkSP V R) s4 Hr4). cbv beta iota. proj.
    rewrite (Display_eq V v s4) by done.
    rewrite E5, E6.
    rewrite (op_arrow_eq p (mkSP V R) s6 Hp6). cbv beta iota. proj.
    rewrite (Display_eq V v s6) by done.
    exact E7. }
  unfold s7. proj.
  split; [|split; [|split; [|done]]].
  - unfold c6, c5, c4, c3', c3, c2, c1. apply map_eq. intros i.
    destruct (decide (i = R)) as [->|HiR]; [by lk|].
    destruct (decide (i = R2)) as [->|HiR2]; [by lk|]. by lk.
  - unfold o1. rewrite delete_insert_eq. by apply delete_id.
  - unfold h6, h5, h4, h3', h3, h2, h1. apply map_eq. intros i.
    destruct (decide (i = p)) as [->|Hip]; [by lk|].
    destruct (decide (i = q)) as [->|Hiq]; [by lk|].
    destruct (decide (i = r)) as [->|Hir]; [by lk|]. by lk.
Qed.

End SmartPointer.

Arguments state : clear implicits.
Arguments stmt : clear implicits.

(** * Instances on concrete programs, with [nat] payloads *)

(** Scenario C: [p] alone on [V1], [q] on [V2]; after [p = q] the payload
    [V1] is deleted, the counter of [V2] is 2, and both dereference to
    [V2] and read its value. *)
Lemma assign_rebinds_witness :
  ∃ s : state nat,
    run [New 1%N 10%nat; New 2%N 20%nat] empty_state = Ok s ∧
    ∃ s', SP_assign 1%N 2%N s = Ok s' ∧
      objs s' !! 1%N = None ∧ releases 1%N s' = 1%nat ∧
      counter 4%N s' = 2 ∧
      op_star 1%N s' = op_star 2%N s' ∧
      sps s' !! 1%N = Some (mkSP 3%N 4%N) ∧
      op_star 1%N s' = Ok 3%N ∧ op_star 2%N s' = Ok 3%N ∧
      read 1%N s' = Ok 20%nat ∧ read 2%N s' = Ok 20%nat.
Proof.
  eexists. split; [vm_compute; reflexivity|].
  match goal with |- ∃ s', SP_assign _ _ ?s = _ ∧ _ => set (s0 := s) end.
  assert (wf s0 ∧ room s0) as [Hwf Hroom].
  { apply (reachable_wf [New 1%N 10%nat; New 2%N 20%nat]);
      [reflexivity|reflexivity|vm_compute; reflexivity]. }
  destruct (assign_rebinds s0 1%N 2%N (mkSP 1%N 2%N) (mkSP 3%N 4%N)
              Hwf Hroom)
    as (s' & Heq & _ & Ht & _ & Hstar & _ & _ & Hcnt & _ & Hrel & Hread);
    [done|reflexivity|reflexivity|].
  exists s'. split; [done|].
  destruct Hrel as [Hobjs Hrel]; [done|].
  destruct (Hread 20%nat) as (_ & Hs1 & Hs2 & Hr1 & Hr2); [reflexivity|].
  split; [by apply Hobjs|]. split; [by apply Hrel|].
  split; [|done].
  cbn [reference] in Hcnt. rewrite Hcnt by done. reflexivity.
Defined.

(** One payload under copies, an empty handle, an assignment and three
    destructions, the first owner going first: one deletion in all. *)
Lemma single_release_witness :
  ∃ s : state nat,
    run [New 1%N 7%nat; Copy 2%N 1%N; Default 3%N; Assign 3%N 1%N;
         Destroy 1%N; Destroy 3%N; Destroy 2%N] empty_state = Ok s ∧
    releases 1%N s = 1%nat ∧ objs s !! 1%N = None.
Proof.
  pose proof (single_release 7%nat 1%N
                [Copy 2%N 1%N; Default 3%N; Assign 3%N 1%N;
                 Destroy 1%N; Destroy 3%N; Destroy 2%N]
                eq_refl eq_refl _ [] (eq_sym (app_nil_r _))) as H.
  cbv zeta in H. destruct H as (s & Hrun & Hrel & Hlive & _).
  exists s. split; [done|].
  vm_compute in Hrun. injection Hrun as <-.
  split; [|reflexivity].
  etransitivity; [exact Hrel|reflexivity].
Defined.

(** The counters of a program with two bindings, at its end. *)
Lemma count_matches_live_handles_witness :
  ∃ s : state nat,
    run [New 1%N 7%nat; Copy 2%N 1%N; Default 3%N; Assign 3%N 1%N;
         Destroy 2%N] empty_state = Ok s ∧
    ∀ r c, rcs s !! r = Some c → count c = Z.of_nat (owners r (sps s)).
Proof.
  destruct (count_matches_live_handles (T := nat)
              [New 1%N 7%nat; Copy 2%N 1%N; Default 3%N; Assign 3%N 1%N;
               Destroy 2%N]
              eq_refl eq_refl _ [] (eq_sym (app_nil_r _)))
    as (s & Hrun & Hcount & _).
  exists s. done.
Defined.

(** [operator=] and the four steps on two handles of different bindings. *)
Lemma assign_follows_steps_witness :
  ∃ s : state nat,
    run [New 1%N 10%nat; New 2%N 20%nat] empty_state = Ok s ∧
    SP_assign 1%N 2%N s = Reassign_spec 1%N 2%N s ∧
    SP_assign 1%N 1%N s = Ok s.
Proof.
  eexists. split; [vm_compute; reflexivity|].
  match goal with |- SP_assign _ _ ?s = _ ∧ _ => set (s0 := s) end.
  assert (wf s0 ∧ room s0) as [Hwf _].
  { apply (reachable_wf [New 1%N 10%nat; New 2%N 20%nat]);
      [reflexivity|reflexivity|vm_compute; reflexivity]. }
  apply (assign_follows_steps s0 1%N 2%N (mkSP 1%N 2%N) (mkSP 3%N 4%N));
    [done|reflexivity|reflexivity].
Defined.

(** C5 fails on a default-constructed handle: member access returns the
    null pointer and no error, and dereference is undefined. *)
Lemma empty_handle_unchecked :
  ∃ s : state nat,
    exec (Default 1%N) empty_state = Ok s ∧
    op_arrow 1%N s = Ok NULL ∧
    op_star 1%N s = Undefined NullAccess.
Proof.
  eexists. split; [vm_compute; reflexivity|]. split; reflexivity.
Qed.

Lemma empty_handle_access_witness :
  ∃ s' : state nat,
    SP_default 1%N empty_state = Ok s' ∧
    op_arrow 1%N s' = Ok NULL ∧
    op_star 1%N s' = Undefined NullAccess ∧
    (p ← op_arrow 1%N s'; load p s') = Undefined NullAccess.
Proof.
  apply (empty_handle_access (T := nat) empty_state 1%N);
    [apply wf_empty|reflexivity].
Defined.

(** C6 fails on a counter fresh from [new RC()]: [Release] returns [-1]
    and the call returns normally. *)
Lemma underflow_undetected :
  Release (mkRC 0) = (mkRC (-1), -1) ∧
  ∃ s' : state nat,
    call_Release 1%N (new_RC empty_state).2 = Ok (-1, s') ∧
    counter 1%N s' = -1.
Proof.
  split; [reflexivity|]. eexists. split; [vm_compute; reflexivity|].
  reflexivity.
Qed.

Lemma release_at_zero_witness :
  Release (mkRC 0) = (mkRC (-1), -1) ∧
  is_ok (call_Release 1%N (new_RC (T := nat) empty_state).2) = true.
Proof.
  destruct (release_at_zero (new_RC (T := nat) empty_state).2 1%N (mkRC 0)
              eq_refl eq_refl) as [HR Hcall].
  split; [done|]. by rewrite Hcall.
Defined.

(** A copy of the only handle of a payload. *)
Lemma copy_shares_value_witness :
  ∃ s : state nat,
    run [New 1%N 10%nat] empty_state = Ok s ∧
    ∃ s', SP_copy 2%N 1%N s = Ok s' ∧
      op_star 1%N s' = Ok 1%N ∧ op_star 2%N s' = Ok 1%N ∧
      read 1%N s' = Ok 10%nat ∧ read 2%N s' = Ok 10%nat.
Proof.
  eexists. split; [vm_compute; reflexivity|].
  match goal with |- ∃ s', SP_copy _ _ ?s = _ ∧ _ => set (s0 := s) end.
  assert (wf s0 ∧ room s0) as [Hwf Hroom].
  { apply (reachable_wf [New 1%N 10%nat]);
      [reflexivity|reflexivity|vm_compute; reflexivity]. }
  destruct (copy_shares_value s0 1%N 2%N (mkSP 1%N 2%N) 10%nat Hwf Hroom)
    as (s' & Hcopy & Hp & Hq & _ & Hrp & Hrq & _);
    [reflexivity|reflexivity|reflexivity|].
  exists s'. done.
Defined.

(** Scenario A in the empty store. *)
Lemma scenario_A_witness :
  ∃ s4 : state nat,
    run [New 1%N 7%nat; Copy 2%N 1%N; Destroy 2%N; Destroy 1%N] empty_state
    = Ok s4 ∧
    objs s4 !! 1%N = None ∧ releases 1%N s4 = 1%nat ∧ rcs s4 !! 2%N = None.
Proof.
  pose proof (scenario_A (T := nat) empty_state 1%N 2%N 7%nat wf_empty) as H.
  cbv zeta in H.
  destruct H as (s1 & s2 & s3 & s4 & H1 & _ & _ & _ & H2 & _ & _ & H3 & _ &
                 _ & _ & H4 & Hobjs & Hrel & Hrcs);
    [done|reflexivity|reflexivity|].
  exists s4. split; [|done].
  cbn [run]. rewrite H1. cbn [mbind result_bind]. rewrite H2.
  cbn [mbind result_bind]. rewrite H3. cbn [mbind result_bind]. by rewrite H4.
Defined.

(** The counter of a single owner. *)
Lemma counter_operations_witness :
  count (AddRef (mkRC 1)) = 2 ∧ Release (mkRC 1) = (mkRC 0, 0) ∧
  ∃ s : state nat,
    run [New 1%N 10%nat] empty_state = Ok s ∧
    is_ok (drop_binding 1%N s) = true.
Proof.
  assert (∃ s : state nat, run [New 1%N 10%nat] empty_state = Ok s)
    as [s Hrun] by (eexists; vm_compute; reflexivity).
  assert (INT_MIN ≤ count (mkRC 1) ≤ INT_MAX) as Hrange by (split; discriminate).
  destruct (counter_operations s 1%N (mkSP 1%N 2%N) (mkRC 1) Hrange)
    as (Hadd & Hrel & s' & Hdrop & _).
  - vm_compute in Hrun. by injection Hrun as <-.
  - vm_compute in Hrun. by injection Hrun as <-.
  - discriminate.
  - right. vm_compute in Hrun. injection Hrun as <-. by eexists.
  - split; [by apply Hadd|]. split; [by apply Hrel|].
    exists s. split; [done|]. by rewrite Hdrop.
Defined.

(** [p = q] between the two handles of one payload. *)
Lemma assign_between_sharers_witness :
  ∃ s : state nat,
    run [New 1%N 10%nat; Copy 2%N 1%N] empty_state = Ok s ∧
    2 ≤ counter 2%N s ∧ SP_assign 1%N 2%N s = Ok s.
Proof.
  eexists. split; [vm_compute; reflexivity|].
  match goal with |- _ ∧ SP_assign _ _ ?s = _ => set (s0 := s) end.
  assert (wf s0 ∧ room s0) as [Hwf _].
  { apply (reachable_wf [New 1%N 10%nat; Copy 2%N 1%N]);
      [reflexivity|reflexivity|vm_compute; reflexivity]. }
  destruct (assign_between_sharers s0 1%N 2%N (mkSP 1%N 2%N) (mkSP 1%N 2%N)
              Hwf) as (H2 & _ & Heq);
    [done|reflexivity|reflexivity|reflexivity|reflexivity|].
  done.
Defined.

(** * Instances of the further properties *)

Lemma no_garbage_witness :
  ∃ s : state nat,
    run [New 1%N 7%nat; Copy 2%N 1%N; Destroy 1%N; Destroy 2%N] empty_state
    = Ok s ∧ rcs s = ∅ ∧ objs s = ∅.
Proof.
  eexists. split; [vm_compute; reflexivity|].
  match goal with |- rcs ?s = _ ∧ _ => set (s0 := s) end.
  destruct (no_garbage [New 1%N 7%nat; Copy 2%N 1%N; Destroy 1%N; Destroy 2%N]
              s0 eq_refl eq_refl) as (_ & _ & Hempty);
    [vm_compute; reflexivity|].
  apply Hempty. reflexivity.
Defined.

Lemma live_handles_are_valid_witness :
  ∃ s : state nat,
    run [New 1%N 7%nat; Copy 2%N 1%N; Destroy 1%N] empty_state = Ok s ∧
    op_star 2%N s = Ok 1%N ∧ ∃ v, read 2%N s = Ok v.
Proof.
  eexists. split; [vm_compute; reflexivity|].
  match goal with |- op_star _ ?s = _ ∧ _ => set (s0 := s) end.
  destruct (live_handles_are_valid
              [New 1%N 7%nat; Copy 2%N 1%N; Destroy 1%N] s0 2%N (mkSP 1%N 2%N)
              eq_refl eq_refl) as (_ & _ & H);
    [vm_compute; reflexivity|reflexivity|].
  destruct H as (Hstar & Hread & _); [done|]. done.
Defined.

Lemma counters_stay_positive_witness :
  ∃ s : state nat,
    run [New 1%N 7%nat; Copy 2%N 1%N] empty_state = Ok s ∧
    rcs s !! 2%N = Some (mkRC 2) ∧ (Release (mkRC 2)).2 = 1.
Proof.
  eexists. split; [vm_compute; reflexivity|]. split; [reflexivity|].
  destruct (counters_stay_positive [New 1%N 7%nat; Copy 2%N 1%N]
              (T := nat)
              (mkState {[2%N := mkRC 2]} {[1%N := 7%nat]}
                       {[1%N := mkSP 1%N 2%N; 2%N := mkSP 1%N 2%N]} 3%N [])
              2%N (mkRC 2) eq_refl eq_refl)
    as (_ & H & _); [vm_compute; reflexivity|reflexivity|exact H].
Defined.

Lemma other_handles_untouched_witness :
  ∃ s s' : state nat,
    run [New 1%N 7%nat; New 2%N 8%nat] empty_state = Ok s ∧
    exec (Destroy 1%N) s = Ok s' ∧
    sps s' !! 2%N = Some (mkSP 3%N 4%N) ∧ objs s' !! 3%N = Some 8%nat.
Proof.
  assert (∃ s : state nat,
            run [New 1%N 7%nat; New 2%N 8%nat] empty_state = Ok s)
    as [s Hrun] by (eexists; vm_compute; reflexivity).
  destruct (reachable_wf [New 1%N 7%nat; New 2%N 8%nat] s
              eq_refl eq_refl Hrun) as [Hwf Hroom].
  assert (∃ s', exec (Destroy 1%N) s = Ok s') as [s' Hexec].
  { vm_compute in Hrun. injection Hrun as <-. eexists. vm_compute.
    reflexivity. }
  exists s, s'. split; [done|]. split; [done|].
  destruct (other_handles_untouched (Destroy 1%N) s s' 2%N (mkSP 3%N 4%N)
              Hwf Hroom) as (Hh & _ & Hv); try done.
  - vm_compute in Hrun. by injection Hrun as <-.
  - vm_compute in Hrun. by injection Hrun as <-.
  - split; [done|]. apply Hv.
    vm_compute in Hrun. by injection Hrun as <-.
Defined.

Lemma raw_pointer_aliasing_witness :
  ∃ s s1 s2 : state nat,
    run [New 1%N 7%nat] empty_state = Ok s ∧
    SP_from 2%N 1%N s = Ok s1 ∧ SP_dtor 2%N s1 = Ok s2 ∧
    op_star 1%N s2 = Undefined Dangling ∧
    SP_dtor 1%N s2 = Undefined DoubleDelete.
Proof.
  assert (∃ s : state nat, run [New 1%N 7%nat] empty_state = Ok s)
    as [s Hrun] by (eexists; vm_compute; reflexivity).
  destruct (reachable_wf [New 1%N 7%nat] s
              eq_refl eq_refl Hrun) as [Hwf _].
  destruct (raw_pointer_aliasing s 1%N 2%N (mkSP 1%N 2%N) (mkRC 1) 7%nat Hwf)
    as (s1 & s2 & H1 & H2 & _ & _ & Hstar & _ & Hdd);
    try (vm_compute in Hrun; by injection Hrun as <-).
  exists s, s1, s2. done.
Defined.

Lemma default_round_trip_witness :
  ∃ s1 s2 : state nat,
    SP_default 1%N empty_state = Ok s1 ∧ SP_dtor 1%N s1 = Ok s2 ∧
    rcs s2 = ∅ ∧ deleted s2 = [].
Proof.
  destruct (default_round_trip (T := nat) empty_state 1%N wf_empty eq_refl)
    as (s1 & s2 & H1 & _ & _ & H2 & Hrcs & _ & _ & Hdel).
  exists s1, s2. done.
Defined.

Lemma new_round_trip_witness :
  ∃ s1 s2 : state nat,
    exec (New 1%N 7%nat) empty_state = Ok s1 ∧ read 1%N s1 = Ok 7%nat ∧
    SP_dtor 1%N s1 = Ok s2 ∧ objs s2 = ∅ ∧ deleted s2 = [1%N].
Proof.
  destruct (new_round_trip (T := nat) empty_state 1%N 7%nat wf_empty eq_refl)
    as (s1 & s2 & H1 & Hread & H2 & _ & Hobjs & _ & Hdel).
  exists s1, s2. done.
Defined.

Lemma copy_round_trip_witness :
  ∃ s s1 : state nat,
    run [New 1%N 7%nat] empty_state = Ok s ∧
    SP_copy 2%N 1%N s = Ok s1 ∧ SP_dtor 2%N s1 = Ok s.
Proof.
  assert (∃ s : state nat, run [New 1%N 7%nat] empty_state = Ok s)
    as [s Hrun] by (eexists; vm_compute; reflexivity).
  destruct (reachable_wf [New 1%N 7%nat] s
              eq_refl eq_refl Hrun) as [Hwf Hroom].
  destruct (copy_round_trip s 1%N 2%N (mkSP 1%N 2%N) Hwf Hroom)
    as (s1 & H1 & H2);
    try (vm_compute in Hrun; by injection Hrun as <-).
  exists s, s1. done.
Defined.

Lemma assign_idempotent_witness :
  ∃ s s1 : state nat,
    run [New 1%N 10%nat; New 2%N 20%nat] empty_state = Ok s ∧
    SP_assign 1%N 2%N s = Ok s1 ∧ SP_assign 1%N 2%N s1 = Ok s1.
Proof.
  assert (∃ s : state nat,
            run [New 1%N 10%nat; New 2%N 20%nat] empty_state = Ok s)
    as [s Hrun] by (eexists; vm_compute; reflexivity).
  destruct (reachable_wf [New 1%N 10%nat; New 2%N 20%nat] s
              eq_refl eq_refl Hrun) as [Hwf Hroom].
  destruct (assign_idempotent s 1%N 2%N (mkSP 1%N 2%N) (mkSP 3%N 4%N)
              Hwf Hroom) as (s1 & H1 & H2);
    try (vm_compute in Hrun; by injection Hrun as <-).
  exists s, s1. done.
Defined.

Lemma main_plain_deletes_witness :
  ∃ s' : state nat,
    main_plain 7%nat empty_state = Ok s' ∧
    main_raw 7%nat empty_state = Ok s' ∧ deleted s' = [1%N].
Proof.
  destruct (main_plain_deletes (T := nat) empty_state 7%nat wf_empty)
    as (s' & H1 & H2 & _ & _ & _ & Hdel).
  exists s'. done.
Defined.

Lemma plain_copy_dangles_witness :
  ∃ s1 : state nat,
    PlainSP_dtor (PlainSP_copy (mkPlainSP 1%N)) (new_T 7%nat empty_state).2
    = Ok s1 ∧
    PlainSP_star (mkPlainSP 1%N) s1 = Undefined Dangling ∧
    PlainSP_dtor (mkPlainSP 1%N) s1 = Undefined DoubleDelete.
Proof.
  destruct (plain_copy_dangles (new_T 7%nat empty_state).2
              (mkPlainSP 1%N) 7%nat) as (_ & s1 & H1 & Hstar & _ & Hdd);
    [done|reflexivity|].
  exists s1. done.
Defined.

Lemma main_plain_copy_undefined_witness :
  main_plain_copy 7%nat (empty_state : state nat) = Undefined Dangling.
Proof.
  apply (main_plain_copy_undefined (T := nat) empty_state 7%nat wf_empty).
Defined.

Lemma main_counted_runs_witness :
  ∃ s' : state nat,
    main_counted 7%nat 1%N 2%N 3%N empty_state = Ok s' ∧
    rcs s' = ∅ ∧ objs s' = ∅ ∧ sps s' = ∅ ∧ deleted s' = [1%N].
Proof.
  apply (main_counted_runs (T := nat) empty_state 7%nat 1%N 2%N 3%N wf_empty);
    done.
Defined.
